(** * Lumina-Note: [scripts/simple_pdf_server.py]

    A shallow embedding of the PDF layout extraction function
    [parse_pdf_simple] and of the Flask handler [parse_pdf] that serves
    [POST /parse], together with the properties of the two that the
    specification states.

    The PDF library (PyMuPDF) and Flask are outside the program: what
    [fitz.open] answers for a path, and what the pages, blocks, lines and
    spans of an opened document hold, are inputs of the model. *)

From Stdlib Require Import Ascii String DecimalNat DecimalString.
From stdpp Require Import base numbers strings list gmap.

Open Scope Z_scope.

Set Warnings "-clear-no-such-hyp".

(** ** Python strings

    A Python [str] is a sequence of Unicode code points. *)

Module PyStr.

Definition char := N.
Definition str := list char.

(** An ASCII literal of the source, as a [str]. *)
Definition lit (s : string) : str :=
  (λ a, N_of_ascii a) <$> list_ascii_of_string s.

(** [ch.isspace()], the table of CPython's [_PyUnicode_IsWhitespace]. *)
Definition isspace (c : char) : bool :=
  ((9 <=? c) && (c <=? 13) || (28 <=? c) && (c <=? 32)
   || (c =? 133) || (c =? 160) || (c =? 5760)
   || (8192 <=? c) && (c <=? 8202)
   || (c =? 8232) || (c =? 8233) || (c =? 8239) || (c =? 8287)
   || (c =? 12288))%N.

(** [s.lstrip()], [s.rstrip()] and [s.strip()] without argument. *)
Fixpoint lstrip (s : str) : str :=
  match s with
  | c :: s' => if isspace c then lstrip s' else s
  | [] => []
  end.

Definition rstrip (s : str) : str := reverse (lstrip (reverse s)).

Definition strip (s : str) : str := rstrip (lstrip s).

(** [str(n)] for a non-negative [int]. *)
Definition of_nat (n : nat) : str :=
  lit (NilEmpty.string_of_uint (Nat.to_uint n)).

(** [str(z)] for an [int]. *)
Definition of_int (z : Z) : str :=
  if z <? 0 then lit "-" ++ of_nat (Z.to_nat (- z)) else of_nat (Z.to_nat z).

End PyStr.

Abbreviation str := PyStr.str.

(** ** Exceptions and the two monads

    Everything the program can raise is an instance of [Exception]; an
    exception is kept with what [str(e)] gives for it. *)

Inductive exn : Type :=
  | KeyError (key : str)          (* [d[key]] on a dict without [key] *)
  | AttributeError (msg : str)    (* [v.get] on a value without [get] *)
  | IndexError (msg : str)
  | LibraryError (msg : str)      (* raised inside PyMuPDF or Flask *)
  | PyException (msg : str).      (* [Exception(msg)] *)

(** [str(e)]. A [KeyError] prints the [repr] of its key; the keys looked up
    by subscript in this program are the identifiers [blocks] and [bbox],
    whose [repr] is the key between single quotes. *)
Definition exn_str (e : exn) : str :=
  match e with
  | KeyError k => PyStr.lit "'" ++ k ++ PyStr.lit "'"
  | AttributeError m | IndexError m | LibraryError m | PyException m => m
  end.

(** A computation that returns or raises. *)
Inductive outcome (A : Type) : Type :=
  | Ret (a : A)
  | Raise (e : exn).
Arguments Ret {A} a.
Arguments Raise {A} e.

#[global] Instance outcome_ret : MRet outcome := @Ret.
#[global] Instance outcome_bind : MBind outcome := λ A B f m,
  match m with
  | Ret a => f a
  | Raise e => Raise e
  end.

(** [for x in xs: s = body(x, s)], leaving the loop at the first raise. *)
Fixpoint for_each {A S : Type} (xs : list A) (body : A → S → outcome S)
    (s : S) : outcome S :=
  match xs with
  | [] => Ret s
  | x :: xs' => s' ← body x s; for_each xs' body s'
  end.

(** [enumerate(xs)]. *)
Definition enumerate {A : Type} (xs : list A) : list (nat * A) :=
  imap pair xs.

(** The part of the process state the program acts on: the documents it
    holds open, how many times it has called [fitz.open], and what it has
    printed on the error stream. *)
Record world : Type := World {
  w_open : gset nat;
  w_open_calls : nat;
  w_stderr : list exn
}.

Definition M (A : Type) : Type := world → outcome A * world.

#[global] Instance M_ret : MRet M := λ A a w, (Ret a, w).
#[global] Instance M_bind : MBind M := λ A B f m w,
  match m w with
  | (Ret a, w') => f a w'
  | (Raise e, w') => (Raise e, w')
  end.

Definition lift {A : Type} (o : outcome A) : M A := λ w, (o, w).

Definition raise {A : Type} (e : exn) : M A := lift (Raise e).

(** [try: body / except Exception as e: handler(e)]. *)
Definition try_except {A : Type} (body : M A) (handler : exn → M A) : M A :=
  λ w,
    match body w with
    | (Ret a, w') => (Ret a, w')
    | (Raise e, w') => handler e w'
    end.

(** ** Values

    What [request.json] parses and what [jsonify] serialises: [None],
    booleans, integers, floats, strings, lists, and dicts in insertion
    order. The program copies floats and tests them for truth, nothing
    more, so their type [num] is left open. *)

Set Warnings "-register-all".

Section Server.

Context {num : Type}.

(** [bool(x)] for a float. *)
Variable num_truth : num → bool.

Inductive pyval : Type :=
  | PNone
  | PBool (b : bool)
  | PInt (z : Z)
  | PFloat (x : num)
  | PStr (s : str)
  | PList (l : list pyval)
  | PDict (d : list (str * pyval)).

(** The value stored under [k], if any; the keys of a dict are distinct. *)
Fixpoint dict_lookup (k : str) (d : list (str * pyval)) : option pyval :=
  match d with
  | [] => None
  | (k', v) :: d' => if decide (k' = k) then Some v else dict_lookup k d'
  end.

Definition dict_keys (d : list (str * pyval)) : list str := fst <$> d.

Definition str_truth (s : str) : bool :=
  match s with [] => false | _ :: _ => true end.

(** [bool(v)]. *)
Definition truth (v : pyval) : bool :=
  match v with
  | PNone => false
  | PBool b => b
  | PInt z => negb (z =? 0)
  | PFloat x => num_truth x
  | PStr s => str_truth s
  | PList l => match l with [] => false | _ :: _ => true end
  | PDict d => match d with [] => false | _ :: _ => true end
  end.

(** [type(v).__name__]. *)
Definition type_name (v : pyval) : str :=
  PyStr.lit
    match v with
    | PNone => "NoneType"
    | PBool _ => "bool"
    | PInt _ => "int"
    | PFloat _ => "float"
    | PStr _ => "str"
    | PList _ => "list"
    | PDict _ => "dict"
    end.

(** [v.get(key)]: only a dict has the method. *)
Definition py_get (v : pyval) (key : str) : outcome pyval :=
  match v with
  | PDict d => Ret (default PNone (dict_lookup key d))
  | _ =>
      Raise (AttributeError
        (PyStr.lit "'" ++ type_name v
           ++ PyStr.lit "' object has no attribute 'get'"))
  end.

(** [d[key]] on a dict of the library whose entry [key] may be absent. *)
Definition subscript {A : Type} (key : string) (entry : option A) : outcome A :=
  match entry with
  | Some a => Ret a
  | None => Raise (KeyError (PyStr.lit key))
  end.

(** ** What PyMuPDF hands to the program

    [page.get_text("dict")] is a dict with an entry [blocks]; a block is a
    dict with entries [type], [bbox] and, for text, [lines]; a line has
    [spans]; a span has [text]. The program reads some entries by
    subscript and others with [get] and a default, so every entry is
    optional here; an entry that is present has the type the library
    gives it. Loading a page and extracting its text may raise. *)

Record Span : Type := { span_text : option str }.

Record Line : Type := { line_spans : option (list Span) }.

Record Block : Type := {
  block_type : option Z;
  block_bbox : option (list num);
  block_lines : option (list Line)
}.

Record Rect : Type := { rect_width : num; rect_height : num }.

Record TextDict : Type := { td_blocks : option (list Block) }.

Record Page : Type := {
  page_rect : Rect;
  page_get_text : outcome TextDict
}.

Record Document : Type := { doc_pages : list (outcome Page) }.

(** [fitz.open(path)], as the library and the file system decide it. *)
Variable fitz_open_result : pyval → outcome Document.

(** [doc[page_num]]. *)
Definition doc_getitem (doc : Document) (page_num : nat) : outcome Page :=
  match doc_pages doc !! page_num with
  | Some page => page
  | None => Raise (IndexError (PyStr.lit "page not in document"))
  end.

Definition newline : str := [10%N].

(** ** [parse_pdf_simple] *)

(** [for span in line.get("spans", []): text += span.get("text", "")] *)
Definition span_loop (spans : list Span) (text : str) : str :=
  fold_left (λ text span, text ++ default [] (span_text span)) spans text.

(** [for line in block.get("lines", []): ...; text += "\n"] *)
Definition line_loop (lines : list Line) (text : str) : str :=
  fold_left
    (λ text line, span_loop (default [] (line_spans line)) text ++ newline)
    lines text.

(** [f"el_{page_num + 1}_{idx}"] *)
Definition element_id (page_num idx : nat) : str :=
  PyStr.lit "el_" ++ PyStr.of_int (Z.of_nat page_num + 1)
    ++ PyStr.lit "_" ++ PyStr.of_int (Z.of_nat idx).

(** [list(bbox)] *)
Definition bbox_list (bbox : list num) : pyval := PList (PFloat <$> bbox).

Definition text_element (page_num idx : nat) (bbox : list num) (content : str)
    : pyval :=
  PDict [ (PyStr.lit "id", PStr (element_id page_num idx));
          (PyStr.lit "type", PStr (PyStr.lit "text"));
          (PyStr.lit "bbox", bbox_list bbox);
          (PyStr.lit "pageIndex", PInt (Z.of_nat page_num + 1));
          (PyStr.lit "content", PStr content) ].

Definition image_element (page_num idx : nat) (bbox : list num) : pyval :=
  PDict [ (PyStr.lit "id", PStr (element_id page_num idx));
          (PyStr.lit "type", PStr (PyStr.lit "image"));
          (PyStr.lit "bbox", bbox_list bbox);
          (PyStr.lit "pageIndex", PInt (Z.of_nat page_num + 1)) ].

(** The body of [for idx, block in enumerate(blocks)]. *)
Definition block_step (page_num : nat) (ib : nat * Block)
    (elements : list pyval) : outcome (list pyval) :=
  let '(idx, block) := ib in
  if decide (block_type block = Some 0) then
    bbox ← subscript "bbox" (block_bbox block);
    let text := line_loop (default [] (block_lines block)) [] in
    if str_truth (PyStr.strip text) then
      Ret (elements ++ [text_element page_num idx bbox (PyStr.strip text)])
    else Ret elements
  else if decide (block_type block = Some 1) then
    bbox ← subscript "bbox" (block_bbox block);
    Ret (elements ++ [image_element page_num idx bbox])
  else Ret elements.

Definition page_elements (page_num : nat) (blocks : list Block)
    : outcome (list pyval) :=
  for_each (enumerate blocks) (block_step page_num) [].

Definition page_dict (page_num : nat) (rect : Rect) (elements : list pyval)
    : pyval :=
  PDict [ (PyStr.lit "pageIndex", PInt (Z.of_nat page_num + 1));
          (PyStr.lit "width", PFloat (rect_width rect));
          (PyStr.lit "height", PFloat (rect_height rect));
          (PyStr.lit "blocks", PList elements) ].

(** The body of [for page_num in range(len(doc))]. *)
Definition page_step (doc : Document) (page_num : nat) (pages : list pyval)
    : outcome (list pyval) :=
  page ← doc_getitem doc page_num;
  let rect := page_rect page in
  td ← page_get_text page;
  blocks ← subscript "blocks" (td_blocks td);
  elements ← page_elements page_num blocks;
  Ret (pages ++ [page_dict page_num rect elements]).

Definition extract_pages (doc : Document) : outcome (list pyval) :=
  for_each (seq 0 (length (doc_pages doc))) (page_step doc) [].

Definition structure_dict (pages : list pyval) : pyval :=
  PDict [ (PyStr.lit "pageCount", PInt (Z.of_nat (length pages)));
          (PyStr.lit "pages", PList pages) ].

(** [fitz.open(pdf_path)]: on success the document is held open under a
    handle that no open document has. *)
Definition fitz_open (pdf_path : pyval) : M (nat * Document) := λ w,
  match fitz_open_result pdf_path with
  | Ret doc =>
      let h := fresh (w_open w) in
      (Ret (h, doc),
       World ({[h]} ∪ w_open w) (S (w_open_calls w)) (w_stderr w))
  | Raise e => (Raise e, World (w_open w) (S (w_open_calls w)) (w_stderr w))
  end.

(** [doc.close()] *)
Definition doc_close (doc : nat * Document) : M () := λ w,
  (Ret (), World (w_open w ∖ {[doc.1]}) (w_open_calls w) (w_stderr w)).

(** The [try] block of [parse_pdf_simple]. *)
Definition parse_pdf_simple_try (pdf_path : pyval) : M pyval :=
  doc ← fitz_open pdf_path;
  pages ← lift (extract_pages doc.2);
  _ ← doc_close doc;
  mret (structure_dict pages).

(** The prefix of the message of the exception that [parse_pdf_simple]
    raises: four Chinese characters (parsing failed), a colon, a space. *)
Definition failure_prefix : str :=
  [35299; 26512; 22833; 36133; 58; 32]%N.

Definition parse_pdf_simple (pdf_path : pyval) : M pyval :=
  try_except (parse_pdf_simple_try pdf_path)
    (λ e, raise (PyException (failure_prefix ++ exn_str e))).

(** ** The handler of [POST /parse] *)

(** [request.json]: the parsed body, unless Flask raises. *)
Record request : Type := { request_json : outcome pyval }.

(** [jsonify(body), status] *)
Record response : Type := Response { status : Z; body : pyval }.

(** [traceback.print_exc()] *)
Definition print_exc (e : exn) : M () := λ w,
  (Ret (), World (w_open w) (w_open_calls w) (w_stderr w ++ [e])).

Definition parse_pdf (req : request) : M response :=
  try_except
    (data ← lift (request_json req);
     pdf_path ← lift (py_get data (PyStr.lit "pdf_path"));
     if negb (truth pdf_path) then
       mret (Response 400
               (PDict [(PyStr.lit "error", PStr (PyStr.lit "PDF path required"))]))
     else
       structure ← parse_pdf_simple pdf_path;
       mret (Response 200 (PDict [(PyStr.lit "structure", structure)])))
    (λ e,
       _ ← print_exc e;
       mret (Response 500 (PDict [(PyStr.lit "error", PStr (exn_str e))]))).

(** [{'error': msg}] *)
Definition error_body (msg : str) : pyval :=
  PDict [(PyStr.lit "error", PStr msg)].

(** ** The handler of [GET /health] *)

Definition health : M response :=
  mret (Response 200
          (PDict [ (PyStr.lit "status", PStr (PyStr.lit "ok"));
                   (PyStr.lit "backend", PStr (PyStr.lit "simple-pymupdf")) ])).

(** ** Reading the result *)

(** The entry [key] of a dict value. *)
Definition field (key : string) (v : pyval) : option pyval :=
  match v with
  | PDict d => dict_lookup (PyStr.lit key) d
  | _ => None
  end.

Definition list_field (key : string) (v : pyval) : list pyval :=
  match field key v with
  | Some (PList l) => l
  | _ => []
  end.

(** The pages of a result, and the blocks of a page of a result. *)
Definition result_pages (structure : pyval) : list pyval :=
  list_field "pages" structure.

Definition page_blocks (page : pyval) : list pyval :=
  list_field "blocks" page.

(** ** The specification's words *)

(** "Concatenate the text of every span within every line of the block,
    inserting a newline after each line's spans." *)
Definition spec_line_text (line : Line) : str :=
  concat ((λ span, default [] (span_text span))
            <$> default [] (line_spans line)) ++ newline.

Definition spec_block_text (block : Block) : str :=
  concat (spec_line_text <$> default [] (block_lines block)).

(** "Trimmed of leading/trailing whitespace": [t] is [s] without a run of
    whitespace at each end, and neither starts nor ends with whitespace. *)
Definition spec_trimmed (s t : str) : Prop :=
  (∃ pre suf, s = pre ++ t ++ suf
     ∧ Forall (λ c, PyStr.isspace c = true) pre
     ∧ Forall (λ c, PyStr.isspace c = true) suf)
  ∧ (∀ c, head t = Some c → PyStr.isspace c = false)
  ∧ (∀ c, last t = Some c → PyStr.isspace c = false).

(** What the loop body appends for a text block with a [bbox], in the
    specification's words. *)
Definition text_emitted (page_num idx : nat) (bbox : list num) (block : Block)
    : list pyval :=
  let content := PyStr.strip (spec_block_text block) in
  if str_truth content then [text_element page_num idx bbox content] else [].

(** An element is emitted for the block at position [idx] of the page at
    position [page_num]. *)
Definition emitted_for (page_num idx : nat) (block : Block) (el : pyval)
    : Prop :=
  (∃ bbox, block_type block = Some 0 ∧ block_bbox block = Some bbox
     ∧ PyStr.strip (spec_block_text block) ≠ []
     ∧ el = text_element page_num idx bbox
              (PyStr.strip (spec_block_text block)))
  ∨ (∃ bbox, block_type block = Some 1 ∧ block_bbox block = Some bbox
     ∧ el = image_element page_num idx bbox).

(** [page.get_text("dict")["blocks"]] for the page at position [page_num],
    where that page loads and its text is extracted. *)
Definition raw_blocks (doc : Document) (page_num : nat) : option (list Block) :=
  match doc_pages doc !! page_num with
  | Some (Ret page) =>
      match page_get_text page with
      | Ret td => td_blocks td
      | Raise _ => None
      end
  | _ => None
  end.

(** [pg] is what the program builds for the page at position [page_num]
    of [doc]: that page loaded, its text was extracted, and [pg] holds its
    size and the elements of its blocks. *)
Definition page_extracted (doc : Document) (page_num : nat) (pg : pyval)
    : Prop :=
  ∃ page blocks elements,
    doc_pages doc !! page_num = Some (Ret page)
    ∧ raw_blocks doc page_num = Some blocks
    ∧ page_elements page_num blocks = Ret elements
    ∧ pg = page_dict page_num (page_rect page) elements.

(** "A well-formed 4-tuple with x0 ≤ x1 and y0 ≤ y1", for an order [le] on
    the numbers. *)
Definition wf_bbox (le : num → num → Prop) (bbox : list num) : Prop :=
  ∃ x0 y0 x1 y1, bbox = [x0; y0; x1; y1] ∧ le x0 x1 ∧ le y0 y1.

(** Every bounding box in a document is well formed. *)
Definition wf_geometry (le : num → num → Prop) (doc : Document) : Prop :=
  ∀ page_num blocks block bbox,
    raw_blocks doc page_num = Some blocks →
    block ∈ blocks →
    block_bbox block = Some bbox →
    wf_bbox le bbox.

(** Extraction from [pdf_path] fails with [cause]: the document does not
    open, or it opens and a later step raises. *)
Definition extraction_fails (pdf_path : pyval) (cause : exn) : Prop :=
  fitz_open_result pdf_path = Raise cause
  ∨ ∃ doc, fitz_open_result pdf_path = Ret doc
      ∧ extract_pages doc = Raise cause.

(** Every page of a document loads, its text is extracted, and each of its
    text and image blocks has a [bbox]. *)
Definition readable (doc : Document) : Prop :=
  ∀ page_num, (page_num < length (doc_pages doc))%nat →
    ∃ blocks, raw_blocks doc page_num = Some blocks
      ∧ ∀ block, block ∈ blocks →
          block_type block = Some 0 ∨ block_type block = Some 1 →
          is_Some (block_bbox block).

End Server.

Arguments pyval : clear implicits.
Arguments Span : clear implicits.
Arguments Line : clear implicits.
Arguments Block : clear implicits.
Arguments Rect : clear implicits.
Arguments TextDict : clear implicits.
Arguments Page : clear implicits.
Arguments Document : clear implicits.
Arguments request : clear implicits.
Arguments response : clear implicits.

(** ** Sample documents and requests

    Coordinates are integers here; any type of numbers would do. *)

Module Samples.

Definition Z_truth (x : Z) : bool := negb (x =? 0).

Definition span (s : string) : Span := {| span_text := Some (PyStr.lit s) |}.

Definition line (spans : list Span) : Line := {| line_spans := Some spans |}.

(** One paragraph of two lines. *)
Definition paragraph : Block Z :=
  {| block_type := Some 0;
     block_bbox := Some [72; 72; 300; 100];
     block_lines := Some [ line [span " Hello,"; span " world"];
                           line [span "second line "] ] |}.

(** An embedded image. *)
Definition picture : Block Z :=
  {| block_type := Some 1;
     block_bbox := Some [72; 120; 200; 220];
     block_lines := None |}.

(** A text block that holds white space only. *)
Definition blank_text : Block Z :=
  {| block_type := Some 0;
     block_bbox := Some [72; 230; 80; 240];
     block_lines := Some [ line [span "  "]; line [] ] |}.

(** A block of a kind the program does not know, without a [bbox]. *)
Definition other_kind : Block Z :=
  {| block_type := Some 2; block_bbox := None; block_lines := None |}.

Definition page_of (blocks : list (Block Z)) : Page Z :=
  {| page_rect := {| rect_width := 595; rect_height := 842 |};
     page_get_text := Ret {| td_blocks := Some blocks |} |}.

(** Two pages: text, a blank text block, an unknown block and an image on
    the first, nothing on the second. *)
Definition two_pages : Document Z :=
  {| doc_pages := [ Ret (page_of [paragraph; blank_text; other_kind; picture]);
                    Ret (page_of []) ] |}.

(** A damaged file: it opens, its first page loads, its second does not. *)
Definition damaged : Document Z :=
  {| doc_pages := [ Ret (page_of [paragraph]);
                    Raise (LibraryError (PyStr.lit "cannot load page")) ] |}.

(** A library that knows two files. *)
Definition library (pdf_path : pyval Z) : outcome (Document Z) :=
  match pdf_path with
  | PStr s =>
      if decide (s = PyStr.lit "/tmp/two_pages.pdf") then Ret two_pages
      else if decide (s = PyStr.lit "/tmp/damaged.pdf") then Ret damaged
      else Raise (LibraryError (PyStr.lit "no such file: '" ++ s ++ PyStr.lit "'"))
  | _ => Raise (LibraryError (PyStr.lit "bad filename"))
  end.

Definition no_such_file : exn :=
  LibraryError (PyStr.lit "no such file: '/tmp/missing.pdf'").

Definition post (body : pyval Z) : request Z := {| request_json := Ret body |}.

Definition path_body (path : string) : pyval Z :=
  PDict [(PyStr.lit "pdf_path", PStr (PyStr.lit path))].

Definition idle : world := World ∅ 0 [].

Definition two_pages_path : pyval Z := PStr (PyStr.lit "/tmp/two_pages.pdf").
Definition damaged_path : pyval Z := PStr (PyStr.lit "/tmp/damaged.pdf").
Definition missing_path : pyval Z := PStr (PyStr.lit "/tmp/missing.pdf").

Definition first_page_blocks : list (Block Z) :=
  [paragraph; blank_text; other_kind; picture].

(** What the program is to build for [two_pages]. *)
Definition paragraph_content : str :=
  PyStr.lit "Hello, world" ++ newline ++ PyStr.lit "second line".

Definition paragraph_element : pyval Z :=
  PDict [ (PyStr.lit "id", PStr (PyStr.lit "el_1_0"));
          (PyStr.lit "type", PStr (PyStr.lit "text"));
          (PyStr.lit "bbox", PList [PFloat 72; PFloat 72; PFloat 300; PFloat 100]);
          (PyStr.lit "pageIndex", PInt 1);
          (PyStr.lit "content", PStr paragraph_content) ].

Definition picture_element : pyval Z :=
  PDict [ (PyStr.lit "id", PStr (PyStr.lit "el_1_3"));
          (PyStr.lit "type", PStr (PyStr.lit "image"));
          (PyStr.lit "bbox", PList [PFloat 72; PFloat 120; PFloat 200; PFloat 220]);
          (PyStr.lit "pageIndex", PInt 1) ].

Definition first_page_elements : list (pyval Z) :=
  [paragraph_element; picture_element].

Definition first_page_dict : pyval Z :=
  PDict [ (PyStr.lit "pageIndex", PInt 1);
          (PyStr.lit "width", PFloat 595);
          (PyStr.lit "height", PFloat 842);
          (PyStr.lit "blocks", PList first_page_elements) ].

Definition second_page_dict : pyval Z :=
  PDict [ (PyStr.lit "pageIndex", PInt 2);
          (PyStr.lit "width", PFloat 595);
          (PyStr.lit "height", PFloat 842);
          (PyStr.lit "blocks", PList []) ].

Definition two_pages_result : pyval Z :=
  PDict [ (PyStr.lit "pageCount", PInt 2);
          (PyStr.lit "pages", PList [first_page_dict; second_page_dict]) ].

(** The state after one call of [fitz.open] with every document closed. *)
Definition after_one_call : world := World ∅ 1 [].

(** A request whose body Flask cannot parse: [request.json] raises. *)
Definition bad_request : exn :=
  LibraryError (PyStr.lit "400 Bad Request: Failed to decode JSON object").

Definition bad_json : request Z := {| request_json := Raise bad_request |}.

(** A body whose [pdf_path] is the number zero. *)
Definition zero_path_body : pyval Z := PDict [(PyStr.lit "pdf_path", PInt 0)].

(** A text block of white space only, without a [bbox]. *)
Definition blank_no_bbox : Block Z :=
  {| block_type := Some 0;
     block_bbox := None;
     block_lines := Some [ line [span " "] ] |}.

Definition no_bbox_blocks : list (Block Z) :=
  [paragraph; other_kind; blank_no_bbox; picture].

(** The state after the damaged document was opened and left open. *)
Definition after_damaged : world := World {[0%nat]} 1 [].

End Samples.

(** * Properties *)

(** ** Strings *)

Module PyStrFacts.
Import PyStr.

Lemma lit_inj s1 s2 : lit s1 = lit s2 → s1 = s2.
Proof.
  unfold lit. intros H.
  rewrite <- (string_of_list_ascii_of_string s1),
          <- (string_of_list_ascii_of_string s2).
  f_equal.
  revert H. generalize (list_ascii_of_string s1) (list_ascii_of_string s2).
  induction l as [|a l IH]; intros [|b k] H; simplify_eq/=; [done|].
  f_equal; [|by apply IH].
  rewrite <- (ascii_N_embedding a), <- (ascii_N_embedding b). congruence.
Qed.

Lemma of_nat_inj n m : of_nat n = of_nat m → n = m.
Proof.
  unfold of_nat. intros H%lit_inj.
  apply DecimalNat.Unsigned.to_uint_inj.
  pose proof (NilEmpty.usu (Nat.to_uint n)) as Hn.
  pose proof (NilEmpty.usu (Nat.to_uint m)) as Hm.
  congruence.
Qed.

Lemma of_int_of_nat n : of_int (Z.of_nat n) = of_nat n.
Proof.
  unfold of_int. destruct (Z.ltb_spec (Z.of_nat n) 0); [lia|].
  by rewrite Nat2Z.id.
Qed.

Lemma of_int_of_nat_inj n m :
  of_int (Z.of_nat n) = of_int (Z.of_nat m) → n = m.
Proof. rewrite !of_int_of_nat. apply of_nat_inj. Qed.

(** [lstrip] removes a run of whitespace from the front, and all of it. *)
Lemma lstrip_spec s :
  ∃ pre, s = pre ++ lstrip s ∧ Forall (λ c, isspace c = true) pre.
Proof.
  induction s as [|c s (pre & Hs & Hpre)]; simpl.
  - by exists [].
  - destruct (isspace c) eqn:Hc.
    + exists (c :: pre). split; [by rewrite <- app_comm_cons, <- Hs|].
      by constructor.
    + by exists [].
Qed.

Lemma lstrip_head s c : head (lstrip s) = Some c → isspace c = false.
Proof.
  induction s as [|c' s IH]; simpl; [done|].
  destruct (isspace c') eqn:Hc; [done|]. simpl. congruence.
Qed.

Lemma rstrip_spec s :
  ∃ suf, s = rstrip s ++ suf ∧ Forall (λ c, isspace c = true) suf.
Proof.
  unfold rstrip. destruct (lstrip_spec (reverse s)) as (pre & Hs & Hpre).
  exists (reverse pre). split; [|by apply Forall_reverse].
  rewrite <- reverse_app, <- Hs. by rewrite reverse_involutive.
Qed.

Lemma rstrip_last s c : last (rstrip s) = Some c → isspace c = false.
Proof. unfold rstrip. rewrite last_reverse. apply lstrip_head. Qed.

Lemma rstrip_head s c :
  head (rstrip s) = Some c → head s = Some c.
Proof.
  destruct (rstrip_spec s) as (suf & Hs & _). intros H.
  rewrite Hs, head_app. by rewrite H.
Qed.

(** [strip] trims, in the sense of the specification. *)
Lemma strip_spec s :
  (∃ pre suf, s = pre ++ strip s ++ suf
     ∧ Forall (λ c, isspace c = true) pre
     ∧ Forall (λ c, isspace c = true) suf)
  ∧ (∀ c, head (strip s) = Some c → isspace c = false)
  ∧ (∀ c, last (strip s) = Some c → isspace c = false).
Proof.
  unfold strip. split_and!.
  - destruct (lstrip_spec s) as (pre & Hs & Hpre).
    destruct (rstrip_spec (lstrip s)) as (suf & Hl & Hsuf).
    exists pre, suf. split_and!; [|done..].
    by rewrite <- Hl.
  - intros c Hc%rstrip_head. by eapply lstrip_head.
  - apply rstrip_last.
Qed.

End PyStrFacts.

(** ** Loops *)

Section Loops.

Context {A S : Type}.
Implicit Types (body : A → S → outcome S) (xs : list A).

Lemma for_each_app xs ys body s :
  for_each (xs ++ ys) body s = s' ← for_each xs body s; for_each ys body s'.
Proof.
  revert s. induction xs as [|x xs IH]; intros s; simpl; [done|].
  destruct (body x s) as [s'|e]; simpl; [apply IH|done].
Qed.

Lemma for_each_singleton x body s : for_each [x] body s = body x s.
Proof. simpl. by destruct (body x s). Qed.

(** A loop that returns has run its body on every element in turn: an
    invariant of the body, indexed by the position reached, holds at the
    end. *)
Lemma for_each_invariant (P : nat → S → Prop) xs body s0 s :
  P 0%nat s0 →
  (∀ i x s s', xs !! i = Some x → P i s → body x s = Ret s' → P (Datatypes.S i) s') →
  for_each xs body s0 = Ret s →
  P (length xs) s.
Proof.
  revert P s0. induction xs as [|x xs IH]; intros P s0 H0 Hstep Hrun;
    simpl in *.
  - by simplify_eq.
  - destruct (body x s0) as [s1|e] eqn:Hx; simpl in Hrun; [|done].
    apply (IH (λ i, P (Datatypes.S i)) s1); [by eapply (Hstep 0%nat)| |done].
    intros i y t t' Hy. by apply (Hstep (Datatypes.S i)).
Qed.

(** A loop whose body returns on every element returns. *)
Lemma for_each_returns (P : nat → S → Prop) xs body s0 :
  P 0%nat s0 →
  (∀ i x s, xs !! i = Some x → P i s →
     ∃ s', body x s = Ret s' ∧ P (Datatypes.S i) s') →
  ∃ s, for_each xs body s0 = Ret s ∧ P (length xs) s.
Proof.
  revert P s0. induction xs as [|x xs IH]; intros P s0 H0 Hstep; simpl.
  - by exists s0.
  - destruct (Hstep 0%nat x s0) as (s1 & -> & H1); [done..|]. simpl.
    apply (IH (λ i, P (Datatypes.S i)) s1); [done|].
    intros i y t Hy. by apply (Hstep (Datatypes.S i)).
Qed.

(** A loop that raises has run its body on a prefix of the elements, and
    raises what the body raised on the next one. *)
Lemma for_each_raises xs body s0 e :
  for_each xs body s0 = Raise e →
  ∃ i x s, xs !! i = Some x
    ∧ for_each (take i xs) body s0 = Ret s
    ∧ body x s = Raise e.
Proof.
  revert s0. induction xs as [|x xs IH]; intros s0 Hrun; simpl in *; [done|].
  destruct (body x s0) as [s1|e'] eqn:Hx; simpl in Hrun.
  - destruct (IH _ Hrun) as (i & y & s & Hy & Hpre & Hbody).
    exists (Datatypes.S i), y, s. simpl. by rewrite Hx.
  - simplify_eq. by exists 0%nat, x, s0.
Qed.

End Loops.

Lemma enumerate_lookup {A : Type} (xs : list A) i ix :
  enumerate xs !! i = Some ix ↔ ix.1 = i ∧ xs !! i = Some ix.2.
Proof.
  unfold enumerate. rewrite list_lookup_imap. destruct ix as [j x]; simpl.
  destruct (xs !! i) as [y|]; simpl; split.
  - intros H. by simplify_eq.
  - intros [-> H]. by simplify_eq.
  - done.
  - by intros [_ ?].
Qed.

Lemma enumerate_length {A : Type} (xs : list A) :
  length (enumerate xs) = length xs.
Proof. apply length_imap. Qed.

(** ** One block *)

Section Blocks.

Context {num : Type}.
Implicit Types (block : Block num) (elements : list (pyval num)).
Implicit Types (page_num idx : nat).

(** The two nested loops accumulate what the specification calls the
    concatenation of the spans' text, line by line. *)
Lemma span_loop_concat (spans : list Span) text :
  span_loop spans text
  = text ++ concat ((λ span, default [] (span_text span)) <$> spans).
Proof.
  unfold span_loop. revert text.
  induction spans as [|sp spans IH]; intros text; simpl.
  - by rewrite app_nil_r.
  - by rewrite IH, app_assoc.
Qed.

Lemma line_loop_concat (lines : list Line) text :
  line_loop lines text = text ++ concat (spec_line_text <$> lines).
Proof.
  unfold line_loop. revert text.
  induction lines as [|ln lines IH]; intros text; simpl.
  - by rewrite app_nil_r.
  - rewrite IH, span_loop_concat. unfold spec_line_text.
    by rewrite <- !app_assoc.
Qed.

Lemma block_text_refines block :
  line_loop (default [] (block_lines block)) [] = spec_block_text block.
Proof. by rewrite line_loop_concat. Qed.

Lemma block_step_text page_num idx block elements bbox :
  block_type block = Some 0 →
  block_bbox block = Some bbox →
  block_step page_num (idx, block) elements
  = Ret (elements ++ text_emitted page_num idx bbox block).
Proof.
  intros Hty Hbb. unfold block_step, text_emitted.
  rewrite decide_True, Hbb by done. simpl.
  rewrite block_text_refines.
  destruct (str_truth _); [done|by rewrite app_nil_r].
Qed.

Lemma block_step_image page_num idx block elements bbox :
  block_type block = Some 1 →
  block_bbox block = Some bbox →
  block_step page_num (idx, block) elements
  = Ret (elements ++ [image_element page_num idx bbox]).
Proof.
  intros Hty Hbb. unfold block_step.
  rewrite decide_False, decide_True, Hbb by congruence. done.
Qed.

Lemma block_step_no_bbox page_num idx block elements :
  block_type block = Some 0 ∨ block_type block = Some 1 →
  block_bbox block = None →
  block_step page_num (idx, block) elements
  = Raise (KeyError (PyStr.lit "bbox")).
Proof.
  intros Hty Hbb. unfold block_step.
  destruct Hty as [Hty|Hty].
  - by rewrite decide_True, Hbb by done.
  - by rewrite decide_False, decide_True, Hbb by congruence.
Qed.

Lemma block_step_other page_num idx block elements :
  block_type block ≠ Some 0 →
  block_type block ≠ Some 1 →
  block_step page_num (idx, block) elements = Ret elements.
Proof. intros H0 H1. unfold block_step. by rewrite !decide_False. Qed.

(** The cases of a step that returns. *)
Lemma block_step_cases page_num idx block elements elements' :
  block_step page_num (idx, block) elements = Ret elements' →
  (∃ bbox, block_type block = Some 0 ∧ block_bbox block = Some bbox
      ∧ elements' = elements ++ text_emitted page_num idx bbox block)
  ∨ (∃ bbox, block_type block = Some 1 ∧ block_bbox block = Some bbox
      ∧ elements' = elements ++ [image_element page_num idx bbox])
  ∨ (block_type block ≠ Some 0 ∧ block_type block ≠ Some 1
      ∧ elements' = elements).
Proof.
  intros Hstep.
  destruct (decide (block_type block = Some 0)) as [H0|H0];
    [|destruct (decide (block_type block = Some 1)) as [H1|H1]].
  - destruct (block_bbox block) as [bbox|] eqn:Hbb.
    + rewrite (block_step_text _ _ _ _ bbox) in Hstep by done.
      left. exists bbox. by simplify_eq.
    + rewrite block_step_no_bbox in Hstep by auto. done.
  - destruct (block_bbox block) as [bbox|] eqn:Hbb.
    + rewrite (block_step_image _ _ _ _ bbox) in Hstep by done.
      right; left. exists bbox. by simplify_eq.
    + rewrite block_step_no_bbox in Hstep by auto. done.
  - rewrite block_step_other in Hstep by done.
    right; right. by simplify_eq.
Qed.

Lemma elem_of_text_emitted page_num idx bbox block el :
  el ∈ text_emitted page_num idx bbox block ↔
  PyStr.strip (spec_block_text block) ≠ []
  ∧ el = text_element page_num idx bbox (PyStr.strip (spec_block_text block)).
Proof.
  unfold text_emitted.
  destruct (PyStr.strip (spec_block_text block)) as [|c t]; simpl.
  - rewrite elem_of_nil. naive_solver.
  - rewrite list_elem_of_singleton. naive_solver.
Qed.

(** The elements of a page are exactly those emitted for its blocks. *)
Lemma page_elements_elem_of page_num (blocks : list (Block num)) elements :
  page_elements page_num blocks = Ret elements →
  ∀ el, el ∈ elements ↔
    ∃ idx block, blocks !! idx = Some block
      ∧ emitted_for page_num idx block el.
Proof.
  unfold page_elements. intros Hrun.
  cut (∀ el, el ∈ elements ↔
         ∃ idx block, (idx < length (enumerate blocks))%nat
           ∧ blocks !! idx = Some block ∧ emitted_for page_num idx block el).
  { intros H el. rewrite H. split; [naive_solver|].
    intros (idx & block & Hb & He). exists idx, block. split_and!; [|done..].
    rewrite enumerate_length. by eapply lookup_lt_Some. }
  revert Hrun.
  apply (for_each_invariant (λ k els, ∀ el, el ∈ els ↔
           ∃ idx block, (idx < k)%nat
             ∧ blocks !! idx = Some block ∧ emitted_for page_num idx block el)).
  - intros el. rewrite elem_of_nil. split; [done|]. intros (? & ? & ? & _). lia.
  - intros i [j block] els els' [Hj Hb]%enumerate_lookup IH Hstep el.
    simpl in *. subst j.
    assert (∀ new : list (pyval num),
      (∀ el, el ∈ new ↔ emitted_for page_num i block el) →
      els' = els ++ new →
      el ∈ els' ↔ ∃ idx block, (idx < S i)%nat ∧ blocks !! idx = Some block
                     ∧ emitted_for page_num idx block el) as Hnew.
    { intros new Hn ->. rewrite elem_of_app, IH, Hn. split.
      - intros [(idx & b & ? & ? & ?)|?].
        + exists idx, b. split_and!; [lia|done..].
        + exists i, block. split_and!; [lia|done..].
      - intros (idx & b & Hlt & Hb' & He).
        destruct (decide (idx = i)) as [->|]; [right; by simplify_eq|].
        left. exists idx, b. split_and!; [lia|done..]. }
    apply block_step_cases in Hstep
      as [(bbox & H0 & Hbb & ->)|[(bbox & H1 & Hbb & ->)|(H0 & H1 & ->)]].
    + apply (Hnew (text_emitted page_num i bbox block)); [|done].
      intros el'. rewrite elem_of_text_emitted. unfold emitted_for.
      split; [naive_solver|].
      intros [(bb & _ & ? & ? & ?)|(bb & ? & _)]; [|congruence].
      by simplify_eq.
    + apply (Hnew [image_element page_num i bbox]); [|done].
      intros el'. rewrite list_elem_of_singleton. unfold emitted_for.
      split; [naive_solver|].
      intros [(bb & ? & _)|(bb & _ & ? & ?)]; [congruence|].
      by simplify_eq.
    + apply (Hnew []); [|by rewrite app_nil_r].
      intros el'. rewrite elem_of_nil. unfold emitted_for. naive_solver.
Qed.

End Blocks.

(** ** One document *)

Section Documents.

Context {num : Type}.
Implicit Types (doc : Document num) (pages : list (pyval num)).

Lemma page_step_returns doc page_num pages pages' :
  page_step doc page_num pages = Ret pages' →
  ∃ pg, page_extracted doc page_num pg ∧ pages' = pages ++ [pg].
Proof.
  unfold page_step, doc_getitem, page_extracted, raw_blocks. intros Hrun.
  destruct (doc_pages doc !! page_num) as [[page|e]|]; simpl in Hrun; [|done..].
  destruct (page_get_text page) as [td|e] eqn:Htd; simpl in Hrun; [|done].
  destruct (td_blocks td) as [blocks|] eqn:Hblocks; simpl in Hrun; [|done].
  destruct (page_elements page_num blocks) as [els|e] eqn:Hels;
    simpl in Hrun; [|done].
  simplify_eq. eexists. split; [|done].
  by exists page, blocks, els.
Qed.

(** The pages of a result are those of the document, one for one and in
    the document's order. *)
Lemma extract_pages_returns doc pages :
  extract_pages doc = Ret pages →
  length pages = length (doc_pages doc)
  ∧ ∀ i pg, pages !! i = Some pg → page_extracted doc i pg.
Proof.
  unfold extract_pages. intros Hrun.
  eapply (for_each_invariant (λ k pages,
            length pages = k
            ∧ ∀ i pg, pages !! i = Some pg → page_extracted doc i pg))
    in Hrun.
  - by rewrite length_seq in Hrun.
  - split; [done|]. intros i pg. by rewrite lookup_nil.
  - intros k page_num acc acc' [-> _]%lookup_seq [Hlen IH]
      (pg & Hpg & ->)%page_step_returns. simpl.
    split; [rewrite length_app; simpl; lia|].
    intros i pg' [?|[? ?]]%lookup_app_Some; [by apply IH|].
    destruct (i - length acc)%nat as [|?] eqn:Hi; simplify_eq/=.
    by replace i with (length acc) by lia.
Qed.

Context (lib : pyval num → outcome (Document num)).

Lemma fresh_handle_closed (opened : gset nat) :
  ({[fresh opened]} ∪ opened) ∖ {[fresh opened]} = opened.
Proof. pose proof (is_fresh opened). set_solver. Qed.

(** The [try] block, evaluated: which documents are open afterwards. *)
Lemma parse_pdf_simple_try_eval pdf_path w :
  parse_pdf_simple_try lib pdf_path w =
  match lib pdf_path with
  | Raise e => (Raise e, World (w_open w) (S (w_open_calls w)) (w_stderr w))
  | Ret doc =>
      match extract_pages doc with
      | Ret pages =>
          (Ret (structure_dict pages),
           World (w_open w) (S (w_open_calls w)) (w_stderr w))
      | Raise e =>
          (Raise e,
           World ({[fresh (w_open w)]} ∪ w_open w) (S (w_open_calls w))
             (w_stderr w))
      end
  end.
Proof.
  unfold parse_pdf_simple_try, fitz_open, mbind, M_bind, lift, doc_close.
  destruct (lib pdf_path) as [doc|e]; [|done]. simpl.
  destruct (extract_pages doc) as [pages|e]; [|done]. simpl.
  by rewrite fresh_handle_closed.
Qed.

Lemma parse_pdf_simple_eval pdf_path w :
  parse_pdf_simple lib pdf_path w =
  match parse_pdf_simple_try lib pdf_path w with
  | (Ret v, w') => (Ret v, w')
  | (Raise e, w') => (Raise (PyException (failure_prefix ++ exn_str e)), w')
  end.
Proof. done. Qed.

Lemma parse_pdf_simple_returns pdf_path w v w' :
  parse_pdf_simple lib pdf_path w = (Ret v, w') →
  ∃ doc pages, lib pdf_path = Ret doc
    ∧ extract_pages doc = Ret pages
    ∧ v = structure_dict pages
    ∧ w' = World (w_open w) (S (w_open_calls w)) (w_stderr w).
Proof.
  rewrite parse_pdf_simple_eval, parse_pdf_simple_try_eval.
  destruct (lib pdf_path) as [doc|e]; [|done].
  destruct (extract_pages doc) as [pages|e] eqn:Hpages; [|done].
  intros ?; simplify_eq. by exists doc, pages.
Qed.

(** A block of a result comes from a block of the document. *)
Lemma parse_pdf_simple_block pdf_path w v w' i pg el :
  parse_pdf_simple lib pdf_path w = (Ret v, w') →
  result_pages v !! i = Some pg →
  el ∈ page_blocks pg →
  ∃ doc blocks idx block,
    lib pdf_path = Ret doc
    ∧ raw_blocks doc i = Some blocks
    ∧ blocks !! idx = Some block
    ∧ emitted_for i idx block el.
Proof.
  intros (doc & pages & Hdoc & Hpages & -> & _)%parse_pdf_simple_returns.
  change (result_pages (structure_dict pages)) with pages.
  intros Hpg Hel.
  apply extract_pages_returns in Hpages as [_ Hpages].
  destruct (Hpages i pg Hpg) as (page & blocks & els & ? & ? & Hels & ->).
  change (page_blocks (page_dict i (page_rect page) els)) with els in Hel.
  apply (page_elements_elem_of _ _ _ Hels) in Hel as (idx & block & ? & ?).
  by exists doc, blocks, idx, block.
Qed.

End Documents.

(** ** The elements of a page *)

Section Elements.

Context {num : Type}.
Implicit Types (block : Block num) (el : pyval num) (bbox : list num).
Implicit Types (page_num idx : nat).

Lemma element_id_inj page_num idx idx' :
  element_id page_num idx = element_id page_num idx' → idx = idx'.
Proof.
  unfold element_id. intros H.
  do 3 apply app_inv_head in H.
  by apply PyStrFacts.of_int_of_nat_inj.
Qed.

Lemma emitted_for_id page_num idx block el :
  emitted_for page_num idx block el →
  field "id" el = Some (PStr (element_id page_num idx)).
Proof. by intros [(bbox & _ & _ & _ & ->)|(bbox & _ & _ & ->)]. Qed.

Lemma emitted_for_page_index page_num idx block el :
  emitted_for page_num idx block el →
  field "pageIndex" el = Some (PInt (Z.of_nat page_num + 1)).
Proof. by intros [(bbox & _ & _ & _ & ->)|(bbox & _ & _ & ->)]. Qed.

Lemma emitted_for_bbox page_num idx block el :
  emitted_for page_num idx block el →
  ∃ bbox, block_bbox block = Some bbox
    ∧ field "bbox" el = Some (PList (PFloat <$> bbox)).
Proof.
  intros [(bbox & _ & ? & _ & ->)|(bbox & _ & ? & ->)]; by exists bbox.
Qed.

(** Two elements of a page with the same [id] come from the same block. *)
Lemma emitted_for_same_id page_num idx idx' block block' el el' :
  emitted_for page_num idx block el →
  emitted_for page_num idx' block' el' →
  field "id" el = field "id" el' →
  idx = idx'.
Proof.
  intros H%emitted_for_id H'%emitted_for_id Heq.
  rewrite H, H' in Heq. apply element_id_inj with page_num. congruence.
Qed.

(** An element emitted for a block is determined by the block and its
    position. *)
Lemma emitted_for_unique page_num idx block el el' :
  emitted_for page_num idx block el →
  emitted_for page_num idx block el' →
  el = el'.
Proof.
  intros [(bbox & H0 & Hbb & _ & ->)|(bbox & H1 & Hbb & ->)]
         [(bbox' & H0' & Hbb' & _ & ->)|(bbox' & H1' & Hbb' & ->)];
    congruence.
Qed.

(** A page whose elements were extracted has a [bbox] on every text and
    image block. *)
Lemma page_elements_bbox page_num (blocks : list (Block num)) elements :
  page_elements page_num blocks = Ret elements →
  ∀ idx block, blocks !! idx = Some block →
    block_type block = Some 0 ∨ block_type block = Some 1 →
    is_Some (block_bbox block).
Proof.
  unfold page_elements. intros Hrun idx block Hb Hty.
  assert (idx < length (enumerate blocks))%nat as Hidx.
  { rewrite enumerate_length. by eapply lookup_lt_Some. }
  revert Hrun idx block Hb Hty Hidx.
  apply (for_each_invariant (λ k (els : list (pyval num)),
           ∀ idx block, blocks !! idx = Some block →
             block_type block = Some 0 ∨ block_type block = Some 1 →
             (idx < k)%nat → is_Some (block_bbox block))).
  - intros; lia.
  - intros i [j b] els els' [Hj Hb]%enumerate_lookup IH Hstep idx block
      Hblock Hty Hlt. simpl in *. subst j.
    destruct (decide (idx = i)) as [->|]; [|apply (IH idx); [done..|lia]].
    simplify_eq.
    apply block_step_cases in Hstep
      as [(bbox & _ & -> & _)|[(bbox & _ & -> & _)|(H0 & H1 & _)]];
      [done..|naive_solver].
Qed.

(** The positions in [els] of elements emitted for different blocks. *)
Lemma page_elements_NoDup page_num (blocks : list (Block num)) elements :
  page_elements page_num blocks = Ret elements →
  NoDup (field "id" <$> elements).
Proof.
  unfold page_elements. intros Hrun.
  cut (NoDup (field "id" <$> elements)
       ∧ ∀ el, el ∈ elements →
           ∃ idx, (idx < length (enumerate blocks))%nat
             ∧ field "id" el = Some (PStr (element_id page_num idx)));
    [by intros [? _]|].
  revert Hrun.
  apply (for_each_invariant (λ k els,
           NoDup (field "id" <$> els)
           ∧ ∀ el, el ∈ els →
               ∃ idx, (idx < k)%nat
                 ∧ field "id" el = Some (PStr (element_id page_num idx)))).
  - split; [constructor|]. by intros el ?%elem_of_nil.
  - intros i [j block] els els' [Hj Hb]%enumerate_lookup [Hnd IH] Hstep.
    simpl in *. subst j.
    assert (∀ el : pyval num,
      field "id" el = Some (PStr (element_id page_num i)) →
      NoDup (field "id" <$> els ++ [el])
      ∧ ∀ el', el' ∈ els ++ [el] →
          ∃ idx, (idx < S i)%nat
            ∧ field "id" el' = Some (PStr (element_id page_num idx))) as Hnew.
    { intros el Hid. split.
      - rewrite fmap_app. apply NoDup_app. split_and!; [done| |].
        + intros id (el' & -> & Hel')%list_elem_of_fmap.
          destruct (IH el' Hel') as (idx & Hlt & Hid').
          simpl. rewrite Hid, Hid', list_elem_of_singleton.
          intros Heq.
          assert (element_id page_num idx = element_id page_num i) as Hi
            by congruence.
          apply element_id_inj in Hi. lia.
        + simpl. apply NoDup_singleton.
      - intros el' [Hel'|Hel'%list_elem_of_singleton]%elem_of_app.
        + destruct (IH el' Hel') as (idx & ? & ?). exists idx. split; [lia|done].
        + subst el'. exists i. split; [lia|done]. }
    assert (NoDup (field "id" <$> els)
      ∧ ∀ el, el ∈ els →
          ∃ idx, (idx < S i)%nat
            ∧ field "id" el = Some (PStr (element_id page_num idx))) as Hold.
    { split; [done|]. intros el (idx & ? & ?)%IH. exists idx. split; [lia|done]. }
    apply block_step_cases in Hstep
      as [(bbox & H0 & Hbb & ->)|[(bbox & H1 & Hbb & ->)|(H0 & H1 & ->)]].
    + unfold text_emitted. destruct (str_truth _).
      * by apply Hnew.
      * by rewrite app_nil_r.
    + by apply Hnew.
    + done.
Qed.

End Elements.

(** ** The extraction function *)

Section Extraction.

Context {num : Type}.
Context (lib : pyval num → outcome (Document num)).
Implicit Types (doc : Document num) (block : Block num) (el pg v : pyval num).
Implicit Types (pdf_path : pyval num) (w : world).

Lemma parse_pdf_simple_page pdf_path w v w' i pg :
  parse_pdf_simple lib pdf_path w = (Ret v, w') →
  result_pages v !! i = Some pg →
  ∃ doc, lib pdf_path = Ret doc ∧ page_extracted doc i pg.
Proof.
  intros (doc & pages & Hdoc & Hpages & -> & _)%parse_pdf_simple_returns Hpg.
  exists doc. split; [done|].
  by apply (extract_pages_returns _ _ Hpages).
Qed.

(** The elements of a page with readable blocks are extracted. *)
Lemma page_elements_readable page_num (blocks : list (Block num)) :
  (∀ block, block ∈ blocks →
     block_type block = Some 0 ∨ block_type block = Some 1 →
     is_Some (block_bbox block)) →
  ∃ elements, page_elements page_num blocks = Ret elements.
Proof.
  intros Hbb. unfold page_elements.
  destruct (for_each_returns (λ _ _, True) (enumerate blocks)
              (block_step page_num) []) as (els & Hels & _); [done| |eauto].
  intros i [j block] els [_ Hb]%enumerate_lookup _. simpl in Hb.
  assert (block ∈ blocks) as Hin by (apply list_elem_of_lookup; eauto).
  destruct (decide (block_type block = Some 0)) as [H0|H0];
    [|destruct (decide (block_type block = Some 1)) as [H1|H1]].
  - destruct (Hbb block) as [bbox Hbbox]; [auto..|].
    rewrite (block_step_text _ _ _ _ bbox) by done. eauto.
  - destruct (Hbb block) as [bbox Hbbox]; [auto..|].
    rewrite (block_step_image _ _ _ _ bbox) by done. eauto.
  - rewrite block_step_other by done. eauto.
Qed.

(** A readable document is extracted: the function returns, and the
    document is closed again. *)
Lemma parse_pdf_simple_readable pdf_path w doc :
  lib pdf_path = Ret doc →
  readable doc →
  ∃ v, parse_pdf_simple lib pdf_path w
       = (Ret v, World (w_open w) (S (w_open_calls w)) (w_stderr w)).
Proof.
  intros Hdoc Hread.
  rewrite parse_pdf_simple_eval, parse_pdf_simple_try_eval, Hdoc.
  destruct (for_each_returns (λ _ _, True)
              (seq 0 (length (doc_pages doc))) (page_step doc) [])
    as (pages & Hpages & _); [done| |].
  - intros i page_num pages [-> Hlt]%lookup_seq _. simpl.
    destruct (Hread i Hlt) as (blocks & Hraw & Hbb).
    destruct (page_elements_readable i blocks Hbb) as [els Hels].
    unfold raw_blocks in Hraw. unfold page_step, doc_getitem.
    destruct (doc_pages doc !! i) as [[page|?]|]; [|done..]. simpl.
    destruct (page_get_text page) as [td|?]; [|done]. simpl.
    rewrite Hraw. simpl. rewrite Hels. simpl. eauto.
  - unfold extract_pages. rewrite Hpages. eauto.
Qed.

(** C4. For a block of text kind, the content the program builds is the
    concatenation of the text of every span of every line, a newline after
    each line, trimmed of whitespace at both ends; the page has an element
    for the block exactly when that content is not empty, and that element
    is the text element with this content. *)
Theorem text_block_content page_num (blocks : list (Block num)) elements
    idx block :
  page_elements page_num blocks = Ret elements →
  blocks !! idx = Some block →
  block_type block = Some 0 →
  let text := spec_block_text block in
  let content := PyStr.strip (line_loop (default [] (block_lines block)) []) in
  content = PyStr.strip text
  ∧ spec_trimmed text content
  ∧ ((∃ el, el ∈ elements
        ∧ field "id" el = Some (PStr (element_id page_num idx)))
     ↔ content ≠ [])
  ∧ (∀ el, el ∈ elements →
       field "id" el = Some (PStr (element_id page_num idx)) →
       ∃ bbox, block_bbox block = Some bbox
         ∧ el = text_element page_num idx bbox content).
Proof.
  intros Hrun Hb H0. simpl. rewrite block_text_refines.
  pose proof (page_elements_elem_of _ _ _ Hrun) as Helem.
  assert (∀ el, el ∈ elements →
            field "id" el = Some (PStr (element_id page_num idx)) →
            emitted_for page_num idx block el) as Hfor.
  { intros el (idx' & block' & Hb' & He)%Helem Hid.
    pose proof (emitted_for_id _ _ _ _ He) as Hid'.
    assert (element_id page_num idx' = element_id page_num idx) as Hi
      by congruence.
    apply element_id_inj in Hi. by simplify_eq. }
  split_and!.
  - done.
  - apply PyStrFacts.strip_spec.
  - split.
    + intros (el & Hel & Hid).
      destruct (Hfor el Hel Hid) as [(_ & _ & _ & ? & _)|(_ & ? & _)];
        [done|congruence].
    + intros Hne.
      destruct (page_elements_bbox _ _ _ Hrun idx block) as [bbox Hbb];
        [done|auto|].
      exists (text_element page_num idx bbox (PyStr.strip (spec_block_text block))).
      split; [|done]. apply Helem. exists idx, block. split; [done|].
      left. by exists bbox.
  - intros el Hel Hid.
    destruct (Hfor el Hel Hid) as [(bbox & _ & ? & _ & ->)|(_ & ? & _)];
      [by exists bbox|congruence].
Qed.

(** C5. When the extraction function returns, [pageCount] is the number of
    pages of the document, [pages] has that length, and the page at
    position [i] of [pages] is page [i] of the document, carrying
    [pageIndex] [i + 1] and that page's width and height. *)
Theorem page_count_and_order pdf_path w v w' :
  parse_pdf_simple lib pdf_path w = (Ret v, w') →
  ∃ doc, lib pdf_path = Ret doc
    ∧ field "pageCount" v = Some (PInt (Z.of_nat (length (doc_pages doc))))
    ∧ field "pages" v = Some (PList (result_pages v))
    ∧ length (result_pages v) = length (doc_pages doc)
    ∧ ∀ i pg, result_pages v !! i = Some pg →
        field "pageIndex" pg = Some (PInt (Z.of_nat i + 1))
        ∧ ∃ page, doc_pages doc !! i = Some (Ret page)
            ∧ field "width" pg = Some (PFloat (rect_width (page_rect page)))
            ∧ field "height" pg = Some (PFloat (rect_height (page_rect page))).
Proof.
  intros (doc & pages & Hdoc & Hpages & -> & _)%parse_pdf_simple_returns.
  apply extract_pages_returns in Hpages as [Hlen Hpages].
  exists doc. change (result_pages (structure_dict pages)) with pages.
  split_and!; [done|by rewrite <- Hlen|done..|].
  intros i pg (page & blocks & els & Hpage & _ & _ & ->)%Hpages.
  split; [done|]. by exists page.
Qed.

(** C6. A block that is neither text nor image leaves the elements as they
    are and raises nothing, whether or not it has a [bbox]; the loop goes
    on with the blocks after it, at their positions in the raw list. *)
Theorem other_kinds_skipped page_num (before after : list (Block num)) block :
  block_type block ≠ Some 0 →
  block_type block ≠ Some 1 →
  (∀ idx elements, block_step page_num (idx, block) elements = Ret elements)
  ∧ page_elements page_num (before ++ block :: after)
    = (elements ← page_elements page_num before;
       for_each
         (drop (S (length before)) (enumerate (before ++ block :: after)))
         (block_step page_num) elements).
Proof.
  intros H0 H1. split; [intros; by apply block_step_other|].
  unfold page_elements, enumerate.
  rewrite imap_app, imap_cons, cons_middle, app_assoc.
  rewrite drop_app_length' by (rewrite length_app, length_imap; simpl; lia).
  rewrite !for_each_app.
  destruct (for_each (imap pair before) _ _) as [els|e]; [|done].
  cbn [mbind outcome_bind].
  by rewrite for_each_singleton, block_step_other.
Qed.

(** C7. In the page at position [i] of a result, whose [pageIndex] is
    [i + 1], every element is emitted for a block at some position [idx] of
    the page's raw block list and has the [id] [el_<i + 1>_<idx>]; no two
    elements of the page have the same [id]. *)
Theorem element_ids_unique pdf_path w v w' i pg :
  parse_pdf_simple lib pdf_path w = (Ret v, w') →
  result_pages v !! i = Some pg →
  field "pageIndex" pg = Some (PInt (Z.of_nat i + 1))
  ∧ (∀ el, el ∈ page_blocks pg →
       ∃ doc blocks idx block,
         lib pdf_path = Ret doc
         ∧ raw_blocks doc i = Some blocks
         ∧ blocks !! idx = Some block
         ∧ emitted_for i idx block el
         ∧ field "id" el
           = Some (PStr (PyStr.lit "el_" ++ PyStr.of_int (Z.of_nat i + 1)
                           ++ PyStr.lit "_" ++ PyStr.of_int (Z.of_nat idx))))
  ∧ NoDup (field "id" <$> page_blocks pg).
Proof.
  intros Hrun Hpg.
  destruct (parse_pdf_simple_page _ _ _ _ _ _ Hrun Hpg)
    as (doc & Hdoc & page & blocks & els & Hpage & Hraw & Hels & ->).
  change (page_blocks (page_dict i (page_rect page) els)) with els.
  split_and!.
  - done.
  - intros el (idx & block & Hb & He)%(page_elements_elem_of _ _ _ Hels).
    exists doc, blocks, idx, block. split_and!; [done..|].
    by apply emitted_for_id in He.
  - by eapply page_elements_NoDup.
Qed.

(** C8. If every bounding box of the document is a 4-tuple
    [(x0, y0, x1, y1)] with [x0 ≤ x1] and [y0 ≤ y1], so is the [bbox] of
    every element of the result. *)
Theorem bbox_well_formed (le : num → num → Prop) pdf_path w v w' doc :
  lib pdf_path = Ret doc →
  wf_geometry le doc →
  parse_pdf_simple lib pdf_path w = (Ret v, w') →
  ∀ pg el, pg ∈ result_pages v → el ∈ page_blocks pg →
    ∃ x0 y0 x1 y1,
      field "bbox" el = Some (PList [PFloat x0; PFloat y0; PFloat x1; PFloat y1])
      ∧ le x0 x1 ∧ le y0 y1.
Proof.
  intros Hdoc Hwf Hrun pg el [i Hpg]%list_elem_of_lookup Hel.
  destruct (parse_pdf_simple_block _ _ _ _ _ _ _ _ Hrun Hpg Hel)
    as (doc' & blocks & idx & block & Hdoc' & Hraw & Hb & He).
  assert (doc' = doc) as -> by congruence.
  destruct (emitted_for_bbox _ _ _ _ He) as (bbox & Hbb & Hfield).
  destruct (Hwf i blocks block bbox) as (x0 & y0 & x1 & y1 & -> & ? & ?);
    [done| |done|].
  { apply list_elem_of_lookup. eauto. }
  by exists x0, y0, x1, y1.
Qed.

(** C9. An element of a result whose [type] is [image] is a dict with the
    keys [id], [type], [bbox] and [pageIndex], in this order, and nothing
    under [content]. *)
Theorem image_block_fields pdf_path w v w' pg el :
  parse_pdf_simple lib pdf_path w = (Ret v, w') →
  pg ∈ result_pages v →
  el ∈ page_blocks pg →
  field "type" el = Some (PStr (PyStr.lit "image")) →
  ∃ d, el = PDict d
    ∧ dict_keys d = [PyStr.lit "id"; PyStr.lit "type"; PyStr.lit "bbox";
                     PyStr.lit "pageIndex"]
    ∧ dict_lookup (PyStr.lit "content") d = None.
Proof.
  intros Hrun [i Hpg]%list_elem_of_lookup Hel Hty.
  destruct (parse_pdf_simple_block _ _ _ _ _ _ _ _ Hrun Hpg Hel)
    as (doc & blocks & idx & block & _ & _ & _ & He).
  destruct He as [(bbox & _ & _ & _ & ->)|(bbox & _ & _ & ->)].
  - discriminate Hty.
  - by eexists.
Qed.

End Extraction.

(** ** The document handle *)

Section Resources.

Context {num : Type}.
Context (lib : pyval num → outcome (Document num)).
Implicit Types (doc : Document num) (pdf_path : pyval num) (w : world).

(** When the function returns, the document it opened is closed again. *)
Lemma parse_pdf_simple_closes_on_return pdf_path w v w' :
  parse_pdf_simple lib pdf_path w = (Ret v, w') →
  w_open w' = w_open w.
Proof. by intros (_ & _ & _ & _ & _ & ->)%parse_pdf_simple_returns. Qed.

(** When the document does not open, there is nothing to close. *)
Lemma parse_pdf_simple_not_opened pdf_path w e :
  lib pdf_path = Raise e →
  parse_pdf_simple lib pdf_path w
  = (Raise (PyException (failure_prefix ++ exn_str e)),
     World (w_open w) (S (w_open_calls w)) (w_stderr w)).
Proof.
  intros Hlib. by rewrite parse_pdf_simple_eval, parse_pdf_simple_try_eval, Hlib.
Qed.

(** When a step after the opening raises, the function raises with the
    document still open: [doc.close()] is the last statement of the [try]
    block, and the [except] clause does not call it. *)
Lemma parse_pdf_simple_open_on_raise pdf_path w doc e :
  lib pdf_path = Ret doc →
  extract_pages doc = Raise e →
  parse_pdf_simple lib pdf_path w
  = (Raise (PyException (failure_prefix ++ exn_str e)),
     World ({[fresh (w_open w)]} ∪ w_open w) (S (w_open_calls w)) (w_stderr w))
  ∧ fresh (w_open w) ∉ w_open w.
Proof.
  intros Hlib Hpages. split; [|apply is_fresh].
  by rewrite parse_pdf_simple_eval, parse_pdf_simple_try_eval, Hlib, Hpages.
Qed.

(** What the function raises, whatever fails. *)
Lemma parse_pdf_simple_raises pdf_path w cause :
  extraction_fails lib pdf_path cause →
  ∃ w', parse_pdf_simple lib pdf_path w
        = (Raise (PyException (failure_prefix ++ exn_str cause)), w')
    ∧ w_stderr w' = w_stderr w.
Proof.
  intros [Hlib|(doc & Hlib & Hpages)].
  - rewrite (parse_pdf_simple_not_opened _ _ cause) by done. eauto.
  - destruct (parse_pdf_simple_open_on_raise pdf_path w doc cause) as [-> _];
      [done..|]. eauto.
Qed.

End Resources.

(** ** The handler *)

Section Handler.

Context {num : Type}.
Context (num_truth : num → bool).
Context (lib : pyval num → outcome (Document num)).
Implicit Types (req : request num) (w : world) (v pdf_path : pyval num).

(** The handler on a body that is a JSON object. *)
Lemma parse_pdf_object req w d :
  request_json req = Ret (PDict d) →
  parse_pdf num_truth lib req w =
  let pdf_path := default PNone (dict_lookup (PyStr.lit "pdf_path") d) in
  if truth num_truth pdf_path then
    match parse_pdf_simple lib pdf_path w with
    | (Ret structure, w') =>
        (Ret (Response 200 (PDict [(PyStr.lit "structure", structure)])), w')
    | (Raise e, w') =>
        (Ret (Response 500 (PDict [(PyStr.lit "error", PStr (exn_str e))])),
         World (w_open w') (w_open_calls w') (w_stderr w' ++ [e]))
    end
  else
    (Ret (Response 400
            (PDict [(PyStr.lit "error", PStr (PyStr.lit "PDF path required"))])),
     w).
Proof.
  intros Hreq. unfold parse_pdf, try_except, mbind, M_bind, lift.
  rewrite Hreq. simpl.
  destruct (truth num_truth _); simpl; [|done].
  by destruct (parse_pdf_simple lib _ w) as [[structure|e] w'].
Qed.

(** The handler when reading [pdf_path] raises. *)
Lemma parse_pdf_no_path req w e :
  (data ← request_json req; py_get data (PyStr.lit "pdf_path")) = Raise e →
  parse_pdf num_truth lib req w
  = (Ret (Response 500 (PDict [(PyStr.lit "error", PStr (exn_str e))])),
     World (w_open w) (w_open_calls w) (w_stderr w ++ [e])).
Proof.
  intros Hget. unfold parse_pdf, try_except, mbind, M_bind, lift.
  destruct (request_json req) as [data|e']; simpl in *; [|by simplify_eq].
  by rewrite Hget.
Qed.

(** C2. When the body names a path on which extraction fails, at the
    opening or at any later step, the response has status 500, its body is
    the one entry [error] with the cause's message behind the program's
    prefix, and the body has no entry [structure]. *)
Theorem extraction_failure_is_500 req w d pdf_path cause :
  request_json req = Ret (PDict d) →
  dict_lookup (PyStr.lit "pdf_path") d = Some pdf_path →
  truth num_truth pdf_path = true →
  extraction_fails lib pdf_path cause →
  ∃ resp w',
    parse_pdf num_truth lib req w = (Ret resp, w')
    ∧ status resp = 500
    ∧ body resp
      = PDict [(PyStr.lit "error", PStr (failure_prefix ++ exn_str cause))]
    ∧ field "structure" (body resp) = None.
Proof.
  intros Hreq Hpath Htruth Hfails.
  rewrite (parse_pdf_object _ _ _ Hreq), Hpath. simpl. rewrite Htruth.
  destruct (parse_pdf_simple_raises lib pdf_path w cause Hfails)
    as (w' & -> & _).
  by eexists _, _.
Qed.

(** A [pdf_path] that is absent or counts as false never reaches the
    extraction function. *)
Lemma parse_pdf_false_path req w d :
  request_json req = Ret (PDict d) →
  truth num_truth (default PNone (dict_lookup (PyStr.lit "pdf_path") d))
  = false →
  parse_pdf num_truth lib req w
  = (Ret (Response 400
            (PDict [(PyStr.lit "error", PStr (PyStr.lit "PDF path required"))])),
     w).
Proof.
  intros Hreq Hfalse. rewrite (parse_pdf_object _ _ _ Hreq). simpl.
  by rewrite Hfalse.
Qed.

(** C3. When the body is a JSON object without [pdf_path], or with the
    empty string for it, the response is 400 with the body
    [{"error": "PDF path required"}], and the process state is untouched:
    [fitz.open], the first statement of the extraction function, has not
    been called. *)
Theorem missing_path_is_400 req w d :
  request_json req = Ret (PDict d) →
  dict_lookup (PyStr.lit "pdf_path") d = None
  ∨ dict_lookup (PyStr.lit "pdf_path") d = Some (PStr []) →
  parse_pdf num_truth lib req w
  = (Ret (Response 400
            (PDict [(PyStr.lit "error", PStr (PyStr.lit "PDF path required"))])),
     w).
Proof.
  intros Hreq Hpath. apply (parse_pdf_false_path _ _ d); [done|].
  by destruct Hpath as [-> | ->].
Qed.

(** C10. When the parsed body is not a JSON object, [None] in particular,
    reading [pdf_path] from it raises, and the response is the 500 of the
    catch-all with the message of that exception under [error], not the
    400 of a missing path. *)
Theorem non_object_body_is_500 req w v :
  request_json req = Ret v →
  (∀ d, v ≠ PDict d) →
  ∃ e resp w',
    py_get v (PyStr.lit "pdf_path") = Raise e
    ∧ parse_pdf num_truth lib req w = (Ret resp, w')
    ∧ status resp = 500
    ∧ status resp ≠ 400
    ∧ body resp = PDict [(PyStr.lit "error", PStr (exn_str e))]
    ∧ w_open_calls w' = w_open_calls w.
Proof.
  intros Hreq Hv.
  assert (∃ e, py_get v (PyStr.lit "pdf_path") = Raise e) as [e He].
  { destruct v; simpl; eauto. by destruct (Hv d). }
  exists e. rewrite (parse_pdf_no_path req w e) by (by rewrite Hreq).
  by eexists _, _.
Qed.

End Handler.

(** ** The program on the sample documents *)

(** C1, on the exit by a raise after the opening. The damaged sample opens;
    its second page does not load; the function raises, and the handle it
    opened is still open, where no document was open before the call. *)
Theorem damaged_document_left_open :
  Samples.library Samples.damaged_path = Ret Samples.damaged
  ∧ w_open Samples.idle = ∅
  ∧ ∃ e w', parse_pdf_simple Samples.library Samples.damaged_path Samples.idle
            = (Raise e, w')
      ∧ w_open w' = {[0%nat]}.
Proof.
  split_and!; [done..|].
  eexists _, _. split; [vm_compute; reflexivity|].
  by vm_compute.
Qed.

(** The two-page sample is extracted as the specification's scenario has
    it: a text element and an image element on the first page, none on the
    second, and every document closed afterwards. *)
Lemma two_pages_extracted :
  parse_pdf_simple Samples.library Samples.two_pages_path Samples.idle
  = (Ret Samples.two_pages_result, Samples.after_one_call).
Proof. by vm_compute. Defined.

Lemma first_page_extracted :
  page_elements 0 Samples.first_page_blocks = Ret Samples.first_page_elements.
Proof. by vm_compute. Defined.

(** The handler on the two samples: the structure with status 200, and
    the wrapped message of the page that does not load with status 500. *)
Example two_pages_served :
  parse_pdf Samples.Z_truth Samples.library
    (Samples.post (Samples.path_body "/tmp/two_pages.pdf")) Samples.idle
  = (Ret (Response 200
            (PDict [(PyStr.lit "structure", Samples.two_pages_result)])),
     Samples.after_one_call).
Proof. by vm_compute. Qed.

Example damaged_served :
  ∃ w', parse_pdf Samples.Z_truth Samples.library
          (Samples.post (Samples.path_body "/tmp/damaged.pdf")) Samples.idle
        = (Ret (Response 500
                  (PDict [(PyStr.lit "error",
                           PStr (failure_prefix
                                   ++ PyStr.lit "cannot load page"))])),
           w').
Proof. eexists. by vm_compute. Qed.

Lemma two_pages_wf_geometry : wf_geometry Z.le Samples.two_pages.
Proof.
  intros [|[|page_num]] blocks block bbox Hraw Hin Hbb;
    unfold raw_blocks in Hraw; simplify_eq/=.
  - repeat (apply elem_of_cons in Hin as [->|Hin]); simplify_eq/=;
      try (by apply elem_of_nil in Hin);
      eexists _, _, _, _; (split_and!; [reflexivity|lia..]).
  - by apply elem_of_nil in Hin.
Qed.

Lemma extraction_failure_is_500_witness :
  (request_json (Samples.post (Samples.path_body "/tmp/missing.pdf"))
   = Ret (PDict [(PyStr.lit "pdf_path", Samples.missing_path)])
   ∧ truth Samples.Z_truth Samples.missing_path = true
   ∧ extraction_fails Samples.library Samples.missing_path Samples.no_such_file)
  ∧ ∃ resp w',
      parse_pdf Samples.Z_truth Samples.library
        (Samples.post (Samples.path_body "/tmp/missing.pdf")) Samples.idle
      = (Ret resp, w')
      ∧ status resp = 500
      ∧ body resp
        = PDict [(PyStr.lit "error",
                  PStr (failure_prefix ++ exn_str Samples.no_such_file))]
      ∧ field "structure" (body resp) = None.
Proof.
  split.
  - split_and!; [reflexivity..|left; reflexivity].
  - apply (extraction_failure_is_500 Samples.Z_truth Samples.library
             (Samples.post (Samples.path_body "/tmp/missing.pdf")) Samples.idle
             [(PyStr.lit "pdf_path", Samples.missing_path)]
             Samples.missing_path Samples.no_such_file).
    + reflexivity.
    + reflexivity.
    + reflexivity.
    + left. reflexivity.
Defined.

Lemma missing_path_is_400_witness :
  (request_json (Samples.post (@PDict Z [])) = Ret (PDict [])
   ∧ dict_lookup (PyStr.lit "pdf_path") (@nil (str * pyval Z)) = None)
  ∧ parse_pdf Samples.Z_truth Samples.library (Samples.post (PDict []))
      Samples.idle
    = (Ret (Response 400
              (PDict [(PyStr.lit "error",
                       PStr (PyStr.lit "PDF path required"))])),
       Samples.idle).
Proof.
  split.
  - split; reflexivity.
  - apply (missing_path_is_400 Samples.Z_truth Samples.library
             (Samples.post (PDict [])) Samples.idle []).
    + reflexivity.
    + left. reflexivity.
Defined.

Lemma text_block_content_witness :
  (page_elements 0 Samples.first_page_blocks = Ret Samples.first_page_elements
   ∧ Samples.first_page_blocks !! 0%nat = Some Samples.paragraph
   ∧ block_type Samples.paragraph = Some 0)
  ∧ PyStr.strip (line_loop (default [] (block_lines Samples.paragraph)) [])
    = Samples.paragraph_content
  ∧ spec_trimmed (spec_block_text Samples.paragraph) Samples.paragraph_content
  ∧ ((∃ el, el ∈ Samples.first_page_elements
        ∧ field "id" el = Some (PStr (element_id 0 0)))
     ↔ Samples.paragraph_content ≠ [])
  ∧ (∀ el, el ∈ Samples.first_page_elements →
       field "id" el = Some (PStr (element_id 0 0)) →
       ∃ bbox, block_bbox Samples.paragraph = Some bbox
         ∧ el = text_element 0 0 bbox Samples.paragraph_content).
Proof.
  split.
  - split_and!; [exact first_page_extracted|reflexivity..].
  - apply (text_block_content 0 Samples.first_page_blocks
             Samples.first_page_elements 0 Samples.paragraph).
    + exact first_page_extracted.
    + reflexivity.
    + reflexivity.
Defined.

Lemma page_count_and_order_witness :
  parse_pdf_simple Samples.library Samples.two_pages_path Samples.idle
  = (Ret Samples.two_pages_result, Samples.after_one_call)
  ∧ ∃ doc, Samples.library Samples.two_pages_path = Ret doc
      ∧ field "pageCount" Samples.two_pages_result
        = Some (PInt (Z.of_nat (length (doc_pages doc))))
      ∧ field "pages" Samples.two_pages_result
        = Some (PList (result_pages Samples.two_pages_result))
      ∧ length (result_pages Samples.two_pages_result) = length (doc_pages doc)
      ∧ ∀ i pg, result_pages Samples.two_pages_result !! i = Some pg →
          field "pageIndex" pg = Some (PInt (Z.of_nat i + 1))
          ∧ ∃ page, doc_pages doc !! i = Some (Ret page)
              ∧ field "width" pg = Some (PFloat (rect_width (page_rect page)))
              ∧ field "height" pg
                = Some (PFloat (rect_height (page_rect page))).
Proof.
  split.
  - exact two_pages_extracted.
  - apply (page_count_and_order Samples.library Samples.two_pages_path
             Samples.idle Samples.two_pages_result Samples.after_one_call).
    exact two_pages_extracted.
Defined.

Lemma other_kinds_skipped_witness :
  (block_type Samples.other_kind ≠ Some 0
   ∧ block_type Samples.other_kind ≠ Some 1)
  ∧ (∀ idx elements,
       block_step 0 (idx, Samples.other_kind) elements = Ret elements)
  ∧ page_elements 0 Samples.first_page_blocks
    = (elements ← page_elements 0 [Samples.paragraph; Samples.blank_text];
       for_each (drop 3 (enumerate Samples.first_page_blocks))
         (block_step 0) elements).
Proof.
  split.
  - split; discriminate.
  - apply (other_kinds_skipped 0 [Samples.paragraph; Samples.blank_text]
             [Samples.picture] Samples.other_kind).
    + discriminate.
    + discriminate.
Defined.

Lemma element_ids_unique_witness :
  (parse_pdf_simple Samples.library Samples.two_pages_path Samples.idle
   = (Ret Samples.two_pages_result, Samples.after_one_call)
   ∧ result_pages Samples.two_pages_result !! 0%nat
     = Some Samples.first_page_dict)
  ∧ field "pageIndex" Samples.first_page_dict = Some (PInt (Z.of_nat 0 + 1))
  ∧ (∀ el, el ∈ page_blocks Samples.first_page_dict →
       ∃ doc blocks idx block,
         Samples.library Samples.two_pages_path = Ret doc
         ∧ raw_blocks doc 0 = Some blocks
         ∧ blocks !! idx = Some block
         ∧ emitted_for 0 idx block el
         ∧ field "id" el
           = Some (PStr (PyStr.lit "el_" ++ PyStr.of_int (Z.of_nat 0 + 1)
                           ++ PyStr.lit "_" ++ PyStr.of_int (Z.of_nat idx))))
  ∧ NoDup (field "id" <$> page_blocks Samples.first_page_dict).
Proof.
  split.
  - split; [exact two_pages_extracted|reflexivity].
  - apply (element_ids_unique Samples.library Samples.two_pages_path
             Samples.idle Samples.two_pages_result Samples.after_one_call
             0 Samples.first_page_dict).
    + exact two_pages_extracted.
    + reflexivity.
Defined.

Lemma bbox_well_formed_witness :
  (Samples.library Samples.two_pages_path = Ret Samples.two_pages
   ∧ wf_geometry Z.le Samples.two_pages
   ∧ parse_pdf_simple Samples.library Samples.two_pages_path Samples.idle
     = (Ret Samples.two_pages_result, Samples.after_one_call))
  ∧ ∀ pg el,
      pg ∈ result_pages Samples.two_pages_result → el ∈ page_blocks pg →
      ∃ x0 y0 x1 y1,
        field "bbox" el
        = Some (PList [PFloat x0; PFloat y0; PFloat x1; PFloat y1])
        ∧ x0 ≤ x1 ∧ y0 ≤ y1.
Proof.
  split.
  - split_and!;
      [reflexivity|exact two_pages_wf_geometry|exact two_pages_extracted].
  - apply (bbox_well_formed Samples.library Z.le Samples.two_pages_path
             Samples.idle Samples.two_pages_result Samples.after_one_call
             Samples.two_pages).
    + reflexivity.
    + exact two_pages_wf_geometry.
    + exact two_pages_extracted.
Defined.

Lemma image_block_fields_witness :
  (parse_pdf_simple Samples.library Samples.two_pages_path Samples.idle
   = (Ret Samples.two_pages_result, Samples.after_one_call)
   ∧ Samples.first_page_dict ∈ result_pages Samples.two_pages_result
   ∧ Samples.picture_element ∈ page_blocks Samples.first_page_dict
   ∧ field "type" Samples.picture_element = Some (PStr (PyStr.lit "image")))
  ∧ ∃ d, Samples.picture_element = PDict d
      ∧ dict_keys d = [PyStr.lit "id"; PyStr.lit "type"; PyStr.lit "bbox";
                       PyStr.lit "pageIndex"]
      ∧ dict_lookup (PyStr.lit "content") d = None.
Proof.
  split.
  - split_and!.
    + exact two_pages_extracted.
    + apply list_elem_of_here.
    + apply list_elem_of_further, list_elem_of_here.
    + reflexivity.
  - apply (image_block_fields Samples.library Samples.two_pages_path
             Samples.idle Samples.two_pages_result Samples.after_one_call
             Samples.first_page_dict Samples.picture_element).
    + exact two_pages_extracted.
    + apply list_elem_of_here.
    + apply list_elem_of_further, list_elem_of_here.
    + reflexivity.
Defined.

Lemma non_object_body_is_500_witness :
  (request_json (Samples.post PNone) = Ret PNone
   ∧ ∀ d, @PNone Z ≠ PDict d)
  ∧ ∃ e resp w',
      py_get (@PNone Z) (PyStr.lit "pdf_path") = Raise e
      ∧ parse_pdf Samples.Z_truth Samples.library (Samples.post PNone)
          Samples.idle = (Ret resp, w')
      ∧ status resp = 500
      ∧ status resp ≠ 400
      ∧ body resp = PDict [(PyStr.lit "error", PStr (exn_str e))]
      ∧ w_open_calls w' = w_open_calls Samples.idle.
Proof.
  split.
  - split; [reflexivity|discriminate].
  - apply (non_object_body_is_500 Samples.Z_truth Samples.library
             (Samples.post PNone) Samples.idle PNone).
    + reflexivity.
    + discriminate.
Defined.

(** * Further properties of the program *)

(** ** More on strings *)

Module PyStrMore.
Import PyStr.

(** [strip] leaves nothing exactly when every character is whitespace. *)
Lemma strip_nil_iff s :
  strip s = [] ↔ Forall (λ c, isspace c = true) s.
Proof.
  destruct (PyStrFacts.strip_spec s) as ((pre & suf & Hs & Hpre & Hsuf) & Hhead & _).
  split.
  - intros Hnil. rewrite Hs, Hnil. simpl. by apply Forall_app.
  - intros Hall. destruct (strip s) as [|c t] eqn:Ht; [done|].
    rewrite Hs in Hall.
    apply Forall_app in Hall as [_ [Hc _]%Forall_cons].
    specialize (Hhead c eq_refl). congruence.
Qed.

(** The decimal digits of a number. *)
Lemma of_nat_digits n : Forall (λ c, (48 ≤ c ≤ 57)%N) (of_nat n).
Proof.
  unfold of_nat. generalize (Nat.to_uint n).
  induction u as [|u IH|u IH|u IH|u IH|u IH|u IH|u IH|u IH|u IH|u IH];
    simpl; [constructor|..];
    (apply Forall_cons; split; [simpl; lia|exact IH]).
Qed.

Lemma of_nat_no_underscore n : 95%N ∉ of_nat n.
Proof.
  intros Hin. pose proof (of_nat_digits n) as Hd.
  rewrite Forall_forall in Hd. specialize (Hd _ Hin). lia.
Qed.

(** Two strings cut at the first occurrence of a separator. *)
Lemma app_separator_inj {A : Type} (x : A) (a a' b b' : list A) :
  x ∉ a → x ∉ a' → a ++ x :: b = a' ++ x :: b' → a = a' ∧ b = b'.
Proof.
  revert a'. induction a as [|c a IH]; intros [|c' a'] Ha Ha' Heq;
    simpl in Heq.
  - by injection Heq as ->.
  - injection Heq as -> _. by apply not_elem_of_cons in Ha' as [? _].
  - injection Heq as -> _. by apply not_elem_of_cons in Ha as [? _].
  - injection Heq as -> Heq.
    apply not_elem_of_cons in Ha as [_ Ha].
    apply not_elem_of_cons in Ha' as [_ Ha'].
    destruct (IH a' Ha Ha' Heq) as [-> ->]. done.
Qed.

End PyStrMore.

(** ** More on loops *)

Lemma enumerate_take {A : Type} (xs : list A) i :
  take i (enumerate xs) = enumerate (take i xs).
Proof.
  apply list_eq. intros j. unfold enumerate.
  destruct (decide (j < i)%nat).
  - by rewrite lookup_take_lt, !list_lookup_imap, lookup_take_lt by done.
  - rewrite lookup_take_ge, list_lookup_imap, lookup_take_ge by lia. done.
Qed.

(** ** More on the blocks of a page *)

Section MoreBlocks.

Context {num : Type}.
Implicit Types (block : Block num) (el : pyval num) (bbox : list num).
Implicit Types (blocks : list (Block num)) (elements : list (pyval num)).
Implicit Types (page_num idx : nat).

Lemma Forall_concat_fmap {A B : Type} (P : B → Prop) (f : A → list B)
    (l : list A) :
  Forall P (concat (f <$> l)) ↔ ∀ x, x ∈ l → Forall P (f x).
Proof.
  induction l as [|a l IH]; simpl.
  - split; [by intros _ x ?%elem_of_nil|constructor].
  - rewrite Forall_app, IH. split.
    + intros [Ha Hl] x [->|Hx]%elem_of_cons; auto.
    + intros H. split; [apply H; left|intros x Hx; apply H; by right].
Qed.

(** The text of a block is whitespace throughout exactly when the text of
    each of its spans is: the newlines the program adds are whitespace. *)
Lemma spec_block_text_blank block :
  Forall (λ c, PyStr.isspace c = true) (spec_block_text block)
  ↔ ∀ line span c,
      line ∈ default [] (block_lines block) →
      span ∈ default [] (line_spans line) →
      c ∈ default [] (span_text span) →
      PyStr.isspace c = true.
Proof.
  unfold spec_block_text. rewrite Forall_concat_fmap. split.
  - intros H line span c Hline Hspan Hc.
    specialize (H line Hline). unfold spec_line_text in H.
    apply Forall_app in H as [H _].
    rewrite Forall_concat_fmap in H. specialize (H span Hspan).
    rewrite Forall_forall in H. by apply H.
  - intros H line Hline. unfold spec_line_text. apply Forall_app. split.
    + apply Forall_concat_fmap. intros span Hspan.
      apply Forall_forall. intros c Hc. by apply (H line span).
    + by repeat constructor.
Qed.

(** X1. A text block with a [bbox] adds nothing to the elements exactly
    when every character of every span of every line is whitespace; a
    block without lines, or with lines without spans, is such a block. *)
Theorem blank_text_block_dropped page_num idx block bbox elements :
  block_type block = Some 0 →
  block_bbox block = Some bbox →
  block_step page_num (idx, block) elements = Ret elements
  ↔ ∀ line span c,
      line ∈ default [] (block_lines block) →
      span ∈ default [] (line_spans line) →
      c ∈ default [] (span_text span) →
      PyStr.isspace c = true.
Proof.
  intros H0 Hbb. rewrite (block_step_text _ _ _ _ bbox) by done.
  rewrite <- spec_block_text_blank, <- PyStrMore.strip_nil_iff.
  unfold text_emitted.
  destruct (PyStr.strip (spec_block_text block)) as [|c t]; simpl.
  - by rewrite app_nil_r.
  - split; [|done]. intros Heq. exfalso.
    assert (length (elements ++ [text_element page_num idx bbox (c :: t)])
            = length elements) as Hlen by congruence.
    rewrite length_app in Hlen. simpl in Hlen. lia.
Qed.

Lemma block_step_raises page_num idx block elements e :
  block_step page_num (idx, block) elements = Raise e →
  e = KeyError (PyStr.lit "bbox")
  ∧ (block_type block = Some 0 ∨ block_type block = Some 1)
  ∧ block_bbox block = None.
Proof.
  intros Hstep.
  destruct (decide (block_type block = Some 0)) as [H0|H0];
    [|destruct (decide (block_type block = Some 1)) as [H1|H1]].
  - destruct (block_bbox block) as [bbox|] eqn:Hbb.
    + by rewrite (block_step_text _ _ _ _ bbox) in Hstep.
    + rewrite block_step_no_bbox in Hstep by auto. split_and!; [congruence|auto..].
  - destruct (block_bbox block) as [bbox|] eqn:Hbb.
    + by rewrite (block_step_image _ _ _ _ bbox) in Hstep.
    + rewrite block_step_no_bbox in Hstep by auto. split_and!; [congruence|auto..].
  - by rewrite block_step_other in Hstep.
Qed.

(** X2. The only exception the loop over the blocks of a page raises is the
    [KeyError] for [bbox], at the first text or image block without one,
    whatever the text of that block. *)
Theorem page_elements_raises_missing_bbox page_num blocks e :
  page_elements page_num blocks = Raise e →
  e = KeyError (PyStr.lit "bbox")
  ∧ ∃ idx block,
      blocks !! idx = Some block
      ∧ (block_type block = Some 0 ∨ block_type block = Some 1)
      ∧ block_bbox block = None
      ∧ ∀ j b, (j < idx)%nat → blocks !! j = Some b →
          block_type b = Some 0 ∨ block_type b = Some 1 →
          is_Some (block_bbox b).
Proof.
  unfold page_elements.
  intros (i & [j block] & els & [Hj Hb]%enumerate_lookup & Hpre & Hstep)
    %for_each_raises.
  simpl in Hj, Hb. subst j.
  apply block_step_raises in Hstep as (-> & Hty & Hbb).
  split; [done|]. exists i, block. split_and!; [done..|].
  intros j b Hlt Hjb Htyb. rewrite enumerate_take in Hpre.
  apply (page_elements_bbox page_num (take i blocks) els Hpre j b);
    [|done]. by rewrite lookup_take_lt.
Qed.

(** X3. The elements of a page are in the order of the raw blocks, and
    there are no more elements than blocks. *)
Theorem elements_in_block_order page_num blocks elements :
  page_elements page_num blocks = Ret elements →
  (length elements ≤ length blocks)%nat
  ∧ ∀ j1 j2 el1 el2 idx1 idx2,
      elements !! j1 = Some el1 →
      elements !! j2 = Some el2 →
      field "id" el1 = Some (PStr (element_id page_num idx1)) →
      field "id" el2 = Some (PStr (element_id page_num idx2)) →
      (j1 < j2)%nat →
      (idx1 < idx2)%nat.
Proof.
  unfold page_elements. intros Hrun.
  rewrite <- (enumerate_length blocks).
  cut ((length elements ≤ length (enumerate blocks))%nat
       ∧ (∀ j el idx, elements !! j = Some el →
            field "id" el = Some (PStr (element_id page_num idx)) →
            (idx < length (enumerate blocks))%nat)
       ∧ ∀ j1 j2 el1 el2 idx1 idx2,
           elements !! j1 = Some el1 →
           elements !! j2 = Some el2 →
           field "id" el1 = Some (PStr (element_id page_num idx1)) →
           field "id" el2 = Some (PStr (element_id page_num idx2)) →
           (j1 < j2)%nat →
           (idx1 < idx2)%nat); [by intros (? & _ & ?)|].
  revert Hrun.
  apply (for_each_invariant (λ k els,
           (length els ≤ k)%nat
           ∧ (∀ j el idx, els !! j = Some el →
                field "id" el = Some (PStr (element_id page_num idx)) →
                (idx < k)%nat)
           ∧ ∀ j1 j2 el1 el2 idx1 idx2,
               els !! j1 = Some el1 →
               els !! j2 = Some el2 →
               field "id" el1 = Some (PStr (element_id page_num idx1)) →
               field "id" el2 = Some (PStr (element_id page_num idx2)) →
               (j1 < j2)%nat →
               (idx1 < idx2)%nat)).
  - split_and!; [done|intros j el idx; by rewrite lookup_nil|].
    intros j1 j2 el1 el2 idx1 idx2. by rewrite lookup_nil.
  - intros i [j block] els els' [Hj Hb]%enumerate_lookup (Hlen & Hlt & Hord)
      Hstep.
    simpl in Hj, Hb. subst j.
    assert (∀ el : pyval num,
      field "id" el = Some (PStr (element_id page_num i)) →
      (length (els ++ [el]) ≤ S i)%nat
      ∧ (∀ j el' idx, (els ++ [el]) !! j = Some el' →
           field "id" el' = Some (PStr (element_id page_num idx)) →
           (idx < S i)%nat)
      ∧ ∀ j1 j2 el1 el2 idx1 idx2,
          (els ++ [el]) !! j1 = Some el1 →
          (els ++ [el]) !! j2 = Some el2 →
          field "id" el1 = Some (PStr (element_id page_num idx1)) →
          field "id" el2 = Some (PStr (element_id page_num idx2)) →
          (j1 < j2)%nat →
          (idx1 < idx2)%nat) as Hnew.
    { intros el Hid.
      assert (∀ j el' idx, (els ++ [el]) !! j = Some el' →
                field "id" el' = Some (PStr (element_id page_num idx)) →
                (j < length els ∧ els !! j = Some el' ∧ idx < i)%nat
                ∨ (j = length els ∧ idx = i)) as Hpos.
      { intros j el' idx [Hj|[Hge Hj]]%lookup_app_Some Hid'.
        - left. split_and!; [by eapply lookup_lt_Some|done|by eapply Hlt].
        - right. destruct (j - length els)%nat as [|?] eqn:Hd; [|done].
          simpl in Hj. split; [lia|].
          apply element_id_inj with page_num. congruence. }
      split_and!.
      - rewrite length_app. simpl. lia.
      - intros j el' idx Hj Hid'.
        destruct (Hpos j el' idx Hj Hid') as [(_ & _ & ?)|[_ ->]]; lia.
      - intros j1 j2 el1 el2 idx1 idx2 Hj1 Hj2 Hid1 Hid2 Hlt12.
        destruct (Hpos j1 el1 idx1 Hj1 Hid1) as [(? & Hj1' & ?)|[-> ->]];
          destruct (Hpos j2 el2 idx2 Hj2 Hid2) as [(? & Hj2' & ?)|[-> ->]];
          [by apply (Hord j1 j2 el1 el2)|lia..]. }
    assert ((length els ≤ S i)%nat
      ∧ (∀ j el idx, els !! j = Some el →
           field "id" el = Some (PStr (element_id page_num idx)) →
           (idx < S i)%nat)
      ∧ ∀ j1 j2 el1 el2 idx1 idx2,
          els !! j1 = Some el1 →
          els !! j2 = Some el2 →
          field "id" el1 = Some (PStr (element_id page_num idx1)) →
          field "id" el2 = Some (PStr (element_id page_num idx2)) →
          (j1 < j2)%nat →
          (idx1 < idx2)%nat) as Hold.
    { split_and!; [lia| |done].
      intros j el idx Hj Hid. specialize (Hlt j el idx Hj Hid). lia. }
    apply block_step_cases in Hstep
      as [(bbox & H0 & Hbb & ->)|[(bbox & H1 & Hbb & ->)|(H0 & H1 & ->)]].
    + unfold text_emitted. destruct (str_truth _).
      * by apply Hnew.
      * by rewrite app_nil_r.
    + by apply Hnew.
    + done.
Qed.

End MoreBlocks.

(** ** More on the extraction function *)

Section MoreExtraction.

Context {num : Type}.
Implicit Types (doc : Document num) (block : Block num) (el pg v : pyval num).
Implicit Types (pdf_path : pyval num) (w : world).

Lemma element_id_inj_page page_num page_num' idx idx' :
  element_id page_num idx = element_id page_num' idx' →
  page_num = page_num' ∧ idx = idx'.
Proof.
  unfold element_id. intros H. apply app_inv_head in H.
  replace (Z.of_nat page_num + 1) with (Z.of_nat (S page_num)) in H by lia.
  replace (Z.of_nat page_num' + 1) with (Z.of_nat (S page_num')) in H by lia.
  rewrite !PyStrFacts.of_int_of_nat in H.
  change (PyStr.of_nat (S page_num) ++ 95%N :: PyStr.of_nat idx
          = PyStr.of_nat (S page_num') ++ 95%N :: PyStr.of_nat idx') in H.
  apply PyStrMore.app_separator_inj in H
    as [Hp%PyStrFacts.of_nat_inj Hi%PyStrFacts.of_nat_inj];
    [|apply PyStrMore.of_nat_no_underscore..].
  split; [lia|done].
Qed.

Lemma page_elements_raise_kind page_num (blocks : list (Block num)) e :
  page_elements page_num blocks = Raise e → e = KeyError (PyStr.lit "bbox").
Proof.
  unfold page_elements.
  intros (i & [j block] & els & _ & _ & Hstep)%for_each_raises.
  by apply block_step_raises in Hstep as (-> & _).
Qed.

(** The pages loop, stopped after [n] pages. *)
Lemma pages_loop_returns doc n (pages : list (pyval num)) :
  for_each (seq 0 n) (page_step doc) [] = Ret pages →
  ∀ j, (j < n)%nat → ∃ pg, page_extracted doc j pg.
Proof.
  intros Hrun.
  pose proof (for_each_invariant (λ k (_ : list (pyval num)),
                ∀ j, (j < k)%nat → ∃ pg, page_extracted doc j pg)
                (seq 0 n) (page_step doc) [] pages) as Hinv.
  rewrite length_seq in Hinv. apply Hinv; [| |done].
  - intros; lia.
  - intros k page_num acc acc' [-> _]%lookup_seq IH
      (pg & Hpg & _)%page_step_returns j Hlt. simpl in Hpg.
    destruct (decide (j = k)) as [->|]; [eauto|]. apply IH. lia.
Qed.

Lemma page_step_raises doc page_num (pages : list (pyval num)) e :
  (page_num < length (doc_pages doc))%nat →
  page_step doc page_num pages = Raise e →
  doc_pages doc !! page_num = Some (Raise e)
  ∨ (∃ page, doc_pages doc !! page_num = Some (Ret page)
       ∧ page_get_text page = Raise e)
  ∨ (∃ page td, doc_pages doc !! page_num = Some (Ret page)
       ∧ page_get_text page = Ret td
       ∧ td_blocks td = None
       ∧ e = KeyError (PyStr.lit "blocks"))
  ∨ (∃ blocks, raw_blocks doc page_num = Some blocks
       ∧ page_elements page_num blocks = Raise e
       ∧ e = KeyError (PyStr.lit "bbox")).
Proof.
  intros Hlt. unfold page_step, doc_getitem, raw_blocks.
  destruct (doc_pages doc !! page_num) as [[page|e']|] eqn:Hpage; simpl.
  - destruct (page_get_text page) as [td|e'] eqn:Htd; simpl.
    + destruct (td_blocks td) as [blocks|] eqn:Hblocks; simpl.
      * destruct (page_elements page_num blocks) as [els|e'] eqn:Hels;
          simpl; [done|].
        intros ?; simplify_eq. do 3 right. exists blocks.
        split_and!; [done..|]. by eapply page_elements_raise_kind.
      * intros ?; simplify_eq. right; right; left. by exists page, td.
    + intros ?; simplify_eq. right; left. by exists page.
  - intros ?; simplify_eq. by left.
  - apply lookup_ge_None in Hpage. lia.
Qed.

(** X4. Extraction returns for exactly the documents all of whose pages
    load and give their blocks, with a [bbox] on every text and image
    block. *)
Theorem extraction_returns_iff_readable doc :
  (∃ pages, extract_pages doc = Ret pages) ↔ readable doc.
Proof.
  split.
  - intros [pages Hpages] page_num Hlt.
    apply extract_pages_returns in Hpages as [Hlen Hpages].
    destruct (lookup_lt_is_Some_2 pages page_num) as [pg Hpg]; [lia|].
    destruct (Hpages _ _ Hpg) as (page & blocks & els & _ & Hraw & Hels & _).
    exists blocks. split; [done|].
    intros block [idx Hb]%list_elem_of_lookup Hty.
    by apply (page_elements_bbox _ _ _ Hels idx block).
  - intros Hread.
    destruct (parse_pdf_simple_readable (λ _, Ret doc) PNone (World ∅ 0 [])
                doc eq_refl Hread) as [v Hv].
    apply parse_pdf_simple_returns in Hv
      as (doc' & pages & Hdoc & Hpages & _).
    exists pages. congruence.
Qed.

(** X5. When extraction raises, it raises what the first page that cannot
    be extracted raises: that page does not load, or its text is not
    extracted, or its dict has no [blocks], or one of its text or image
    blocks has no [bbox]. The pages before it were extracted; the index
    never runs out of the document. *)
Theorem extraction_first_failure doc e :
  extract_pages doc = Raise e →
  ∃ i, (i < length (doc_pages doc))%nat
    ∧ (∀ j, (j < i)%nat → ∃ pg, page_extracted doc j pg)
    ∧ (doc_pages doc !! i = Some (Raise e)
       ∨ (∃ page, doc_pages doc !! i = Some (Ret page)
            ∧ page_get_text page = Raise e)
       ∨ (∃ page td, doc_pages doc !! i = Some (Ret page)
            ∧ page_get_text page = Ret td
            ∧ td_blocks td = None
            ∧ e = KeyError (PyStr.lit "blocks"))
       ∨ (∃ blocks, raw_blocks doc i = Some blocks
            ∧ page_elements i blocks = Raise e
            ∧ e = KeyError (PyStr.lit "bbox"))).
Proof.
  unfold extract_pages.
  intros (i & page_num & pages & [-> Hlt]%lookup_seq & Hpre & Hstep)
    %for_each_raises.
  simpl in Hstep. exists i. split_and!; [done| |].
  - rewrite take_seq, Nat.min_l in Hpre by lia.
    by eapply pages_loop_returns.
  - by eapply page_step_raises.
Qed.

Context (lib : pyval num → outcome (Document num)).

(** X6. Whatever fails, the function raises an [Exception] whose message is
    the prefix followed by the message of the cause; it has called
    [fitz.open] once and printed nothing. *)
Theorem failure_is_wrapped pdf_path w e w' :
  parse_pdf_simple lib pdf_path w = (Raise e, w') →
  ∃ cause,
    extraction_fails lib pdf_path cause
    ∧ e = PyException (failure_prefix ++ exn_str cause)
    ∧ w_open_calls w' = S (w_open_calls w)
    ∧ w_stderr w' = w_stderr w.
Proof.
  rewrite parse_pdf_simple_eval, parse_pdf_simple_try_eval.
  destruct (lib pdf_path) as [doc|cause] eqn:Hlib.
  - destruct (extract_pages doc) as [pages|cause] eqn:Hpages; [done|].
    intros ?; simplify_eq. exists cause. split_and!; [|done..].
    right. by exists doc.
  - intros ?; simplify_eq. exists cause. split_and!; [|done..]. by left.
Qed.

(** X7. Every element of a result is of type [text] or [image]; a text
    element has the five keys [id], [type], [bbox], [pageIndex] and
    [content], and its content is not empty and neither starts nor ends
    with whitespace. *)
Theorem element_shape pdf_path w v w' pg el :
  parse_pdf_simple lib pdf_path w = (Ret v, w') →
  pg ∈ result_pages v →
  el ∈ page_blocks pg →
  (field "type" el = Some (PStr (PyStr.lit "text"))
   ∨ field "type" el = Some (PStr (PyStr.lit "image")))
  ∧ (field "type" el = Some (PStr (PyStr.lit "text")) →
     ∃ d content,
       el = PDict d
       ∧ dict_keys d = [PyStr.lit "id"; PyStr.lit "type"; PyStr.lit "bbox";
                        PyStr.lit "pageIndex"; PyStr.lit "content"]
       ∧ field "content" el = Some (PStr content)
       ∧ content ≠ []
       ∧ (∀ c, head content = Some c → PyStr.isspace c = false)
       ∧ (∀ c, last content = Some c → PyStr.isspace c = false)).
Proof.
  intros Hrun [i Hpg]%list_elem_of_lookup Hel.
  destruct (parse_pdf_simple_block _ _ _ _ _ _ _ _ Hrun Hpg Hel)
    as (doc & blocks & idx & block & _ & _ & _ & He).
  destruct He as [(bbox & _ & _ & Hne & ->)|(bbox & _ & _ & ->)].
  - split; [by left|]. intros _.
    destruct (PyStrFacts.strip_spec (spec_block_text block))
      as (_ & Hhead & Hlast).
    by eexists _, _.
  - split; [by right|]. intros Hty. discriminate Hty.
Qed.

(** X8. An element carries the [pageIndex] of the page it is listed in, and
    its [bbox] is the [bbox] of a raw block of that page, component by
    component, whatever the number of components. *)
Theorem element_copies_block pdf_path w v w' i pg el :
  parse_pdf_simple lib pdf_path w = (Ret v, w') →
  result_pages v !! i = Some pg →
  el ∈ page_blocks pg →
  field "pageIndex" el = field "pageIndex" pg
  ∧ ∃ doc blocks idx block bbox,
      lib pdf_path = Ret doc
      ∧ raw_blocks doc i = Some blocks
      ∧ blocks !! idx = Some block
      ∧ block_bbox block = Some bbox
      ∧ field "bbox" el = Some (PList (PFloat <$> bbox)).
Proof.
  intros Hrun Hpg Hel.
  destruct (parse_pdf_simple_block _ _ _ _ _ _ _ _ Hrun Hpg Hel)
    as (doc & blocks & idx & block & Hdoc & Hraw & Hb & He).
  destruct (parse_pdf_simple_page _ _ _ _ _ _ _ Hrun Hpg)
    as (doc' & _ & page & blocks' & els & _ & _ & _ & ->).
  split.
  - by rewrite (emitted_for_page_index _ _ _ _ He).
  - destruct (emitted_for_bbox _ _ _ _ He) as (bbox & Hbb & Hfield).
    by exists doc, blocks, idx, block, bbox.
Qed.

(** X9. No two elements of a result have the same [id], on the same page or
    on different pages: the decimal numbers of the page and of the
    position are read back from the [id]. *)
Theorem element_ids_unique_in_document pdf_path w v w' i j pg pg' el el' :
  parse_pdf_simple lib pdf_path w = (Ret v, w') →
  result_pages v !! i = Some pg →
  result_pages v !! j = Some pg' →
  el ∈ page_blocks pg →
  el' ∈ page_blocks pg' →
  field "id" el = field "id" el' →
  i = j ∧ el = el'.
Proof.
  intros Hrun Hpg Hpg' Hel Hel' Hid.
  destruct (parse_pdf_simple_block _ _ _ _ _ _ _ _ Hrun Hpg Hel)
    as (doc & blocks & idx & block & Hdoc & Hraw & Hb & He).
  destruct (parse_pdf_simple_block _ _ _ _ _ _ _ _ Hrun Hpg' Hel')
    as (doc' & blocks' & idx' & block' & Hdoc' & Hraw' & Hb' & He').
  assert (element_id i idx = element_id j idx') as Heq.
  { pose proof (emitted_for_id _ _ _ _ He) as H1.
    pose proof (emitted_for_id _ _ _ _ He') as H2. congruence. }
  apply element_id_inj_page in Heq as [-> ->].
  split; [done|].
  assert (doc' = doc) as -> by congruence.
  assert (blocks' = blocks) as -> by congruence.
  assert (block' = block) as -> by congruence.
  by eapply emitted_for_unique.
Qed.

End MoreExtraction.

(** ** More on the handler *)

Section MoreHandler.

Context {num : Type}.
Context (num_truth : num → bool).
Context (lib : pyval num → outcome (Document num)).
Implicit Types (req : request num) (w : world) (v pdf_path : pyval num).

(** Every way through the handler. *)
Lemma parse_pdf_cases req w :
  (∃ e, (data ← request_json req; py_get data (PyStr.lit "pdf_path")) = Raise e
     ∧ parse_pdf num_truth lib req w
       = (Ret (Response 500 (error_body (exn_str e))),
          World (w_open w) (w_open_calls w) (w_stderr w ++ [e])))
  ∨ (∃ d, request_json req = Ret (PDict d)
       ∧ truth num_truth (default PNone (dict_lookup (PyStr.lit "pdf_path") d))
         = false
       ∧ parse_pdf num_truth lib req w
         = (Ret (Response 400 (error_body (PyStr.lit "PDF path required"))), w))
  ∨ (∃ d doc pages,
       request_json req = Ret (PDict d)
       ∧ truth num_truth (default PNone (dict_lookup (PyStr.lit "pdf_path") d))
         = true
       ∧ lib (default PNone (dict_lookup (PyStr.lit "pdf_path") d)) = Ret doc
       ∧ extract_pages doc = Ret pages
       ∧ parse_pdf num_truth lib req w
         = (Ret (Response 200
                   (PDict [(PyStr.lit "structure", structure_dict pages)])),
            World (w_open w) (S (w_open_calls w)) (w_stderr w)))
  ∨ (∃ d cause,
       request_json req = Ret (PDict d)
       ∧ truth num_truth (default PNone (dict_lookup (PyStr.lit "pdf_path") d))
         = true
       ∧ lib (default PNone (dict_lookup (PyStr.lit "pdf_path") d))
         = Raise cause
       ∧ parse_pdf num_truth lib req w
         = (Ret (Response 500 (error_body (failure_prefix ++ exn_str cause))),
            World (w_open w) (S (w_open_calls w))
              (w_stderr w ++ [PyException (failure_prefix ++ exn_str cause)])))
  ∨ (∃ d doc cause,
       request_json req = Ret (PDict d)
       ∧ truth num_truth (default PNone (dict_lookup (PyStr.lit "pdf_path") d))
         = true
       ∧ lib (default PNone (dict_lookup (PyStr.lit "pdf_path") d)) = Ret doc
       ∧ extract_pages doc = Raise cause
       ∧ parse_pdf num_truth lib req w
         = (Ret (Response 500 (error_body (failure_prefix ++ exn_str cause))),
            World ({[fresh (w_open w)]} ∪ w_open w) (S (w_open_calls w))
              (w_stderr w ++ [PyException (failure_prefix ++ exn_str cause)]))).
Proof.
  destruct (request_json req) as [data|e] eqn:Hreq.
  2:{ left. exists e. split; [done|].
      apply parse_pdf_no_path. by rewrite Hreq. }
  assert ((∃ d, data = PDict d)
          ∨ ∃ e, py_get data (PyStr.lit "pdf_path") = Raise e) as [[d ->]|[e He]].
  { destruct data; simpl; eauto. }
  2:{ left. exists e. split; [done|].
      apply parse_pdf_no_path. by rewrite Hreq. }
  right. rewrite (parse_pdf_object _ _ _ _ d Hreq). simpl.
  destruct (truth num_truth _) eqn:Htruth; [|left; by exists d].
  right. rewrite parse_pdf_simple_eval, parse_pdf_simple_try_eval.
  destruct (lib _) as [doc|cause] eqn:Hlib.
  - destruct (extract_pages doc) as [pages|cause] eqn:Hpages.
    + left. by exists d, doc, pages.
    + right; right. by exists d, doc, cause.
  - right; left. by exists d, cause.
Qed.

(** X10. The handler never raises. It answers 200 with the one entry
    [structure], or 400 with the fixed message under [error], or 500 with
    a message under [error]; no body has both entries. *)
Theorem handler_always_answers req w :
  ∃ resp w',
    parse_pdf num_truth lib req w = (Ret resp, w')
    ∧ ((status resp = 200
        ∧ ∃ structure, body resp = PDict [(PyStr.lit "structure", structure)])
       ∨ (status resp = 400
          ∧ body resp = error_body (PyStr.lit "PDF path required"))
       ∨ (status resp = 500 ∧ ∃ msg, body resp = error_body msg)).
Proof.
  destruct (parse_pdf_cases req w)
    as [(e & _ & ->)|[(d & _ & _ & ->)|[(d & doc & pages & _ & _ & _ & _ & ->)
       |[(d & cause & _ & _ & _ & ->)|(d & doc & cause & _ & _ & _ & _ & ->)]]]];
    eexists _, _; (split; [reflexivity|]); simpl; eauto 10.
Qed.

(** X11. When [request.json] itself raises, as Flask does on a body that is
    not JSON, the response is the 500 of the catch-all with the message of
    that exception, not Flask's own; [fitz.open] is not called. *)
Theorem unparsable_body_is_500 req w e :
  request_json req = Raise e →
  parse_pdf num_truth lib req w
  = (Ret (Response 500 (error_body (exn_str e))),
     World (w_open w) (w_open_calls w) (w_stderr w ++ [e])).
Proof. intros Hreq. apply parse_pdf_no_path. by rewrite Hreq. Qed.

(** X12. A [pdf_path] that is [null], [false], the number zero, an empty
    list or an empty object is answered like a missing one: 400, and the
    process state is untouched. *)
Theorem false_values_are_400 req w d v :
  request_json req = Ret (PDict d) →
  dict_lookup (PyStr.lit "pdf_path") d = Some v →
  v ∈ [PNone; PBool false; PInt 0; PList []; PDict []] →
  parse_pdf num_truth lib req w
  = (Ret (Response 400 (error_body (PyStr.lit "PDF path required"))), w).
Proof.
  intros Hreq Hv Hin. rewrite (parse_pdf_object _ _ _ _ d Hreq), Hv. simpl.
  repeat (apply elem_of_cons in Hin as [->|Hin]); try done.
  by apply elem_of_nil in Hin.
Qed.

(** X13. A request calls [fitz.open] once when its body is an object with a
    [pdf_path] that counts as true, a string or not, and not at all
    otherwise. *)
Theorem open_called_once req w :
  w_open_calls (parse_pdf num_truth lib req w).2
  = (w_open_calls w
     + match request_json req with
       | Ret (PDict d) =>
           if truth num_truth
                (default PNone (dict_lookup (PyStr.lit "pdf_path") d))
           then 1 else 0
       | _ => 0
       end)%nat.
Proof.
  destruct (parse_pdf_cases req w)
    as [(e & He & ->)|[(d & -> & -> & ->)|[(d & doc & pages & -> & -> & _ & _ & ->)
       |[(d & cause & -> & -> & _ & ->)|(d & doc & cause & -> & -> & _ & _ & ->)]]]];
    simpl; try lia.
  destruct (request_json req) as [[]|]; simpl in *; try lia. done.
Qed.

(** X14. For a path that counts as true and a readable document the
    response is 200 with the structure of all pages; afterwards the
    document is closed and nothing was printed. *)
Theorem readable_document_is_200 req w d pdf_path doc :
  request_json req = Ret (PDict d) →
  dict_lookup (PyStr.lit "pdf_path") d = Some pdf_path →
  truth num_truth pdf_path = true →
  lib pdf_path = Ret doc →
  readable doc →
  ∃ pages,
    extract_pages doc = Ret pages
    ∧ length pages = length (doc_pages doc)
    ∧ parse_pdf num_truth lib req w
      = (Ret (Response 200
                (PDict [(PyStr.lit "structure", structure_dict pages)])),
         World (w_open w) (S (w_open_calls w)) (w_stderr w)).
Proof.
  intros Hreq Hpath Htruth Hlib Hread.
  destruct (parse_pdf_simple_readable lib pdf_path w doc Hlib Hread) as [v Hv].
  pose proof Hv as (doc' & pages & Hlib' & Hpages & -> & _)
    %parse_pdf_simple_returns.
  assert (doc' = doc) as -> by congruence.
  exists pages. split_and!; [done|by apply extract_pages_returns|].
  rewrite (parse_pdf_object _ _ _ _ d Hreq), Hpath. simpl.
  by rewrite Htruth, Hv.
Qed.

(** X15. A request closes no document that was open before it, and opens at
    most one; after a response other than 500 the open documents are those
    of before. *)
Theorem open_documents_kept req w :
  ∃ resp w',
    parse_pdf num_truth lib req w = (Ret resp, w')
    ∧ w_open w ⊆ w_open w'
    ∧ w_open w' ⊆ {[fresh (w_open w)]} ∪ w_open w
    ∧ (status resp ≠ 500 → w_open w' = w_open w).
Proof.
  destruct (parse_pdf_cases req w)
    as [(e & _ & ->)|[(d & _ & _ & ->)|[(d & doc & pages & _ & _ & _ & _ & ->)
       |[(d & cause & _ & _ & _ & ->)|(d & doc & cause & _ & _ & _ & _ & ->)]]]];
    eexists _, _; (split; [reflexivity|]); simpl;
    (split_and!; [set_solver..|done]).
Qed.


End MoreHandler.

(** ** Requests that leave a document open *)

Section Leaks.

Context {num : Type}.
Context (num_truth : num → bool).
Context (lib : pyval num → outcome (Document num)).


End Leaks.

(** ** The further properties on the sample documents *)

Lemma two_pages_readable : readable Samples.two_pages.
Proof.
  intros [|[|page_num]] Hlt; simpl in Hlt; [| |lia].
  - exists Samples.first_page_blocks. split; [reflexivity|].
    intros block Hin Hty.
    repeat (apply elem_of_cons in Hin as [->|Hin]); simpl; eauto.
    + by destruct Hty.
    + by apply elem_of_nil in Hin.
  - exists []. split; [reflexivity|]. by intros block ?%elem_of_nil.
Qed.

Lemma damaged_raises :
  parse_pdf_simple Samples.library Samples.damaged_path Samples.idle
  = (Raise (PyException (failure_prefix ++ PyStr.lit "cannot load page")),
     Samples.after_damaged).
Proof. by vm_compute. Defined.

(** The liveness answer does not depend on the state and leaves it alone. *)
Lemma health_answers {num : Type} (w : world) :
  ∃ resp, @health num w = (Ret resp, w) ∧ status resp = 200
    ∧ field "status" (body resp) = Some (PStr (PyStr.lit "ok")).
Proof. by eexists. Qed.

Lemma blank_text_block_dropped_witness :
  (block_type Samples.blank_text = Some 0
   ∧ block_bbox Samples.blank_text = Some [72; 230; 80; 240])
  ∧ (block_step 0 (1%nat, Samples.blank_text) [] = Ret []
     ↔ ∀ line span c,
         line ∈ default [] (block_lines Samples.blank_text) →
         span ∈ default [] (line_spans line) →
         c ∈ default [] (span_text span) →
         PyStr.isspace c = true).
Proof.
  split.
  - split; reflexivity.
  - apply (blank_text_block_dropped 0 1 Samples.blank_text [72; 230; 80; 240] []).
    + reflexivity.
    + reflexivity.
Defined.

Lemma page_elements_raises_missing_bbox_witness :
  page_elements 0 Samples.no_bbox_blocks = Raise (KeyError (PyStr.lit "bbox"))
  ∧ KeyError (PyStr.lit "bbox") = KeyError (PyStr.lit "bbox")
  ∧ ∃ idx block,
      Samples.no_bbox_blocks !! idx = Some block
      ∧ (block_type block = Some 0 ∨ block_type block = Some 1)
      ∧ block_bbox block = None
      ∧ ∀ j b, (j < idx)%nat → Samples.no_bbox_blocks !! j = Some b →
          block_type b = Some 0 ∨ block_type b = Some 1 →
          is_Some (block_bbox b).
Proof.
  split.
  - reflexivity.
  - apply (page_elements_raises_missing_bbox 0 Samples.no_bbox_blocks
             (KeyError (PyStr.lit "bbox"))).
    reflexivity.
Defined.

Lemma elements_in_block_order_witness :
  page_elements 0 Samples.first_page_blocks = Ret Samples.first_page_elements
  ∧ (length Samples.first_page_elements ≤ length Samples.first_page_blocks)%nat
  ∧ ∀ j1 j2 el1 el2 idx1 idx2,
      Samples.first_page_elements !! j1 = Some el1 →
      Samples.first_page_elements !! j2 = Some el2 →
      field "id" el1 = Some (PStr (element_id 0 idx1)) →
      field "id" el2 = Some (PStr (element_id 0 idx2)) →
      (j1 < j2)%nat →
      (idx1 < idx2)%nat.
Proof.
  split.
  - exact first_page_extracted.
  - apply (elements_in_block_order 0 Samples.first_page_blocks
             Samples.first_page_elements).
    exact first_page_extracted.
Defined.

Lemma extraction_first_failure_witness :
  extract_pages Samples.damaged
  = Raise (LibraryError (PyStr.lit "cannot load page"))
  ∧ ∃ i, (i < length (doc_pages Samples.damaged))%nat
      ∧ (∀ j, (j < i)%nat → ∃ pg, page_extracted Samples.damaged j pg)
      ∧ (doc_pages Samples.damaged !! i
         = Some (Raise (LibraryError (PyStr.lit "cannot load page")))
         ∨ (∃ page, doc_pages Samples.damaged !! i = Some (Ret page)
              ∧ page_get_text page
                = Raise (LibraryError (PyStr.lit "cannot load page")))
         ∨ (∃ page td, doc_pages Samples.damaged !! i = Some (Ret page)
              ∧ page_get_text page = Ret td
              ∧ td_blocks td = None
              ∧ LibraryError (PyStr.lit "cannot load page")
                = KeyError (PyStr.lit "blocks"))
         ∨ (∃ blocks, raw_blocks Samples.damaged i = Some blocks
              ∧ page_elements i blocks
                = Raise (LibraryError (PyStr.lit "cannot load page"))
              ∧ LibraryError (PyStr.lit "cannot load page")
                = KeyError (PyStr.lit "bbox"))).
Proof.
  split.
  - reflexivity.
  - apply (extraction_first_failure Samples.damaged
             (LibraryError (PyStr.lit "cannot load page"))).
    reflexivity.
Defined.

Lemma failure_is_wrapped_witness :
  parse_pdf_simple Samples.library Samples.damaged_path Samples.idle
  = (Raise (PyException (failure_prefix ++ PyStr.lit "cannot load page")),
     Samples.after_damaged)
  ∧ ∃ cause,
      extraction_fails Samples.library Samples.damaged_path cause
      ∧ PyException (failure_prefix ++ PyStr.lit "cannot load page")
        = PyException (failure_prefix ++ exn_str cause)
      ∧ w_open_calls Samples.after_damaged = S (w_open_calls Samples.idle)
      ∧ w_stderr Samples.after_damaged = w_stderr Samples.idle.
Proof.
  split.
  - exact damaged_raises.
  - apply (failure_is_wrapped Samples.library Samples.damaged_path
             Samples.idle
             (PyException (failure_prefix ++ PyStr.lit "cannot load page"))
             Samples.after_damaged).
    exact damaged_raises.
Defined.

Lemma element_shape_witness :
  (parse_pdf_simple Samples.library Samples.two_pages_path Samples.idle
   = (Ret Samples.two_pages_result, Samples.after_one_call)
   ∧ Samples.first_page_dict ∈ result_pages Samples.two_pages_result
   ∧ Samples.paragraph_element ∈ page_blocks Samples.first_page_dict)
  ∧ (field "type" Samples.paragraph_element = Some (PStr (PyStr.lit "text"))
     ∨ field "type" Samples.paragraph_element
       = Some (PStr (PyStr.lit "image")))
  ∧ (field "type" Samples.paragraph_element = Some (PStr (PyStr.lit "text")) →
     ∃ d content,
       Samples.paragraph_element = PDict d
       ∧ dict_keys d = [PyStr.lit "id"; PyStr.lit "type"; PyStr.lit "bbox";
                        PyStr.lit "pageIndex"; PyStr.lit "content"]
       ∧ field "content" Samples.paragraph_element = Some (PStr content)
       ∧ content ≠ []
       ∧ (∀ c, head content = Some c → PyStr.isspace c = false)
       ∧ (∀ c, last content = Some c → PyStr.isspace c = false)).
Proof.
  split.
  - split_and!;
      [exact two_pages_extracted|apply list_elem_of_here..].
  - apply (element_shape Samples.library Samples.two_pages_path
             Samples.idle Samples.two_pages_result Samples.after_one_call
             Samples.first_page_dict Samples.paragraph_element).
    + exact two_pages_extracted.
    + apply list_elem_of_here.
    + apply list_elem_of_here.
Defined.

Lemma element_copies_block_witness :
  (parse_pdf_simple Samples.library Samples.two_pages_path Samples.idle
   = (Ret Samples.two_pages_result, Samples.after_one_call)
   ∧ result_pages Samples.two_pages_result !! 0%nat
     = Some Samples.first_page_dict
   ∧ Samples.picture_element ∈ page_blocks Samples.first_page_dict)
  ∧ field "pageIndex" Samples.picture_element
    = field "pageIndex" Samples.first_page_dict
  ∧ ∃ doc blocks idx block bbox,
      Samples.library Samples.two_pages_path = Ret doc
      ∧ raw_blocks doc 0 = Some blocks
      ∧ blocks !! idx = Some block
      ∧ block_bbox block = Some bbox
      ∧ field "bbox" Samples.picture_element = Some (PList (PFloat <$> bbox)).
Proof.
  split.
  - split_and!;
      [exact two_pages_extracted|reflexivity
      |apply list_elem_of_further, list_elem_of_here].
  - apply (element_copies_block Samples.library Samples.two_pages_path
             Samples.idle Samples.two_pages_result Samples.after_one_call
             0 Samples.first_page_dict Samples.picture_element).
    + exact two_pages_extracted.
    + reflexivity.
    + apply list_elem_of_further, list_elem_of_here.
Defined.

Lemma element_ids_unique_in_document_witness :
  (parse_pdf_simple Samples.library Samples.two_pages_path Samples.idle
   = (Ret Samples.two_pages_result, Samples.after_one_call)
   ∧ result_pages Samples.two_pages_result !! 0%nat
     = Some Samples.first_page_dict
   ∧ Samples.picture_element ∈ page_blocks Samples.first_page_dict
   ∧ field "id" Samples.picture_element = field "id" Samples.picture_element)
  ∧ 0%nat = 0%nat ∧ Samples.picture_element = Samples.picture_element.
Proof.
  split.
  - split_and!;
      [exact two_pages_extracted|reflexivity
      |apply list_elem_of_further, list_elem_of_here|reflexivity].
  - apply (element_ids_unique_in_document Samples.library
             Samples.two_pages_path Samples.idle Samples.two_pages_result
             Samples.after_one_call 0 0 Samples.first_page_dict
             Samples.first_page_dict Samples.picture_element
             Samples.picture_element).
    + exact two_pages_extracted.
    + reflexivity.
    + reflexivity.
    + apply list_elem_of_further, list_elem_of_here.
    + apply list_elem_of_further, list_elem_of_here.
    + reflexivity.
Defined.

Lemma unparsable_body_is_500_witness :
  request_json Samples.bad_json = Raise Samples.bad_request
  ∧ parse_pdf Samples.Z_truth Samples.library Samples.bad_json Samples.idle
    = (Ret (Response 500 (error_body (exn_str Samples.bad_request))),
       World (w_open Samples.idle) (w_open_calls Samples.idle)
         (w_stderr Samples.idle ++ [Samples.bad_request])).
Proof.
  split.
  - reflexivity.
  - apply (unparsable_body_is_500 Samples.Z_truth Samples.library
             Samples.bad_json Samples.idle Samples.bad_request).
    reflexivity.
Defined.

Lemma false_values_are_400_witness :
  (request_json (Samples.post Samples.zero_path_body)
   = Ret (PDict [(PyStr.lit "pdf_path", PInt 0)])
   ∧ dict_lookup (PyStr.lit "pdf_path") [(PyStr.lit "pdf_path", @PInt Z 0)]
     = Some (PInt 0)
   ∧ @PInt Z 0 ∈ [PNone; PBool false; PInt 0; PList []; PDict []])
  ∧ parse_pdf Samples.Z_truth Samples.library
      (Samples.post Samples.zero_path_body) Samples.idle
    = (Ret (Response 400 (error_body (PyStr.lit "PDF path required"))),
       Samples.idle).
Proof.
  split.
  - split_and!;
      [reflexivity..|apply list_elem_of_further, list_elem_of_further,
                       list_elem_of_here].
  - apply (false_values_are_400 Samples.Z_truth Samples.library
             (Samples.post Samples.zero_path_body) Samples.idle
             [(PyStr.lit "pdf_path", PInt 0)] (PInt 0)).
    + reflexivity.
    + reflexivity.
    + apply list_elem_of_further, list_elem_of_further, list_elem_of_here.
Defined.

Lemma readable_document_is_200_witness :
  (request_json (Samples.post (Samples.path_body "/tmp/two_pages.pdf"))
   = Ret (PDict [(PyStr.lit "pdf_path", Samples.two_pages_path)])
   ∧ truth Samples.Z_truth Samples.two_pages_path = true
   ∧ Samples.library Samples.two_pages_path = Ret Samples.two_pages
   ∧ readable Samples.two_pages)
  ∧ ∃ pages,
      extract_pages Samples.two_pages = Ret pages
      ∧ length pages = length (doc_pages Samples.two_pages)
      ∧ parse_pdf Samples.Z_truth Samples.library
          (Samples.post (Samples.path_body "/tmp/two_pages.pdf")) Samples.idle
        = (Ret (Response 200
                  (PDict [(PyStr.lit "structure", structure_dict pages)])),
           World (w_open Samples.idle) (S (w_open_calls Samples.idle))
             (w_stderr Samples.idle)).
Proof.
  split.
  - split_and!; [reflexivity..|exact two_pages_readable].
  - apply (readable_document_is_200 Samples.Z_truth Samples.library
             (Samples.post (Samples.path_body "/tmp/two_pages.pdf"))
             Samples.idle
             [(PyStr.lit "pdf_path", Samples.two_pages_path)]
             Samples.two_pages_path Samples.two_pages).
    + reflexivity.
    + reflexivity.
    + reflexivity.
    + reflexivity.
    + exact two_pages_readable.
Defined.

